(** * aws/hhvm1/lambdas/activities.py

    A shallow embedding of the Step Functions activities of the packaging
    repository, and the properties of their decision predicates and launch
    configurations.

    Conventions of the embedding.

    - A Python call either returns a value or raises: [result A].  The
      exceptions of the model are the ones the code of activities.py raises
      itself ([raise Exception(...)]) and the ones its own subscript,
      iteration and membership operations raise on the values it receives
      ([KeyError], [TypeError]).  Calls into the [common] module, into boto3
      and into the Docker registry are taken as returning: a failure of the
      network or of a service is outside the model.  The one exception is
      botocore's check of parameter types, which happens before any request.
    - JSON documents (the activity's event, the registry's tag list, the
      launch parameters) are values of [pyval]; JSON numbers are integers.
    - A [dict] whose order of insertion is observable (it is iterated to build
      a message, or returned) is an association list in insertion order; a
      dict that is only looked up and measured is a [gmap].
    - A Python [set] of strings is a [gset string]; the order in which CPython
      iterates a set is left open ([PySet.order]).  A set of JSON values is
      the list of its members ([pyset]), compared as Python compares them. *)

From Stdlib Require Import String Ascii ZArith List.
From stdpp Require Import base option list gmap sets strings.

Open Scope string_scope.

(** ** Python values, exceptions and dictionaries *)

Module py.

Inductive exn : Type :=
| Exception (msg : string)
| KeyError (key : string)
| TypeError (msg : string)
| StopIteration
| ParamValidationError (msg : string).

Inductive result (A : Type) : Type :=
| Ok (a : A)
| Raise (e : exn).
Arguments Ok {A} a.
Arguments Raise {A} e.

Definition raises {A} (r : result A) : Prop :=
  match r with Ok _ => False | Raise _ => True end.

Definition returns {A} (r : result A) : Prop :=
  match r with Ok _ => True | Raise _ => False end.

(** Sequencing: the first exception raised ends the computation. *)
Definition bind {A B} (r : result A) (f : A → result B) : result B :=
  match r with Ok a => f a | Raise e => Raise e end.

Notation "'do' x <- e ; k" := (bind e (λ x, k))
  (at level 10, x name, e at level 100, k at level 200,
   format "'[v' 'do'  x  <-  e ; '/' k ']'").
Notation "'do_' e ; k" := (bind e (λ _, k))
  (at level 10, e at level 100, k at level 200,
   format "'[v' 'do_'  e ; '/' k ']'").

(** The double quote and the line feed, as one-character strings. *)
Definition dq : string := String (ascii_of_nat 34) EmptyString.
Definition nl : string := String (ascii_of_nat 10) EmptyString.

(** [sep.join(l)] *)
Definition join (sep : string) (l : list string) : string :=
  String.concat sep l.

(** A dict in insertion order. *)
Definition dict (V : Type) : Type := list (string * V).

Definition keys {V} (d : dict V) : list string := d.*1.
Definition values {V} (d : dict V) : list V := d.*2.

(** [d.get(k)] *)
Fixpoint get {V} (d : dict V) (k : string) : option V :=
  match d with
  | [] => None
  | (k', v) :: d' => if decide (k' = k) then Some v else get d' k
  end.

(** [d[k] = v]: an existing key keeps its place, a new one goes last. *)
Fixpoint setitem {V} (d : dict V) (k : string) (v : V) : dict V :=
  match d with
  | [] => [(k, v)]
  | (k', v') :: d' =>
      if decide (k' = k) then (k, v) :: d' else (k', v') :: setitem d' k v
  end.

(** [d.update(e)] *)
Definition update {V} (d e : dict V) : dict V :=
  foldl (λ acc kv, setitem acc kv.1 kv.2) d e.

(** [{k: v for k, v in d.items() if keep(k, v)}] *)
Definition dict_comp {V} (keep : string → V → bool) (d : dict V) : dict V :=
  update [] (filter (λ kv, keep kv.1 kv.2 = true) d).

(** [any(...)] *)
Definition any {A} (p : A → bool) (l : list A) : bool := existsb p l.

(** [any(f(x) for x in l)] where [f] may raise: the generator is consumed up
    to the first true value. *)
Fixpoint any_gen {A} (f : A → result bool) (l : list A) : result bool :=
  match l with
  | [] => Ok false
  | x :: l' => do b <- f x; if b then Ok true else any_gen f l'
  end.

(** JSON-shaped values. *)
#[local] Unset Elimination Schemes.
Inductive pyval : Type :=
| PNone
| PBool (b : bool)
| PInt (z : Z)
| PStr (s : string)
| PList (l : list pyval)
| PDict (d : list (string * pyval)).
#[local] Set Elimination Schemes.

(** Truth value of an object, as [if v:] and [not v] test it. *)
Definition truthy (v : pyval) : bool :=
  match v with
  | PNone => false
  | PBool b => b
  | PInt z => negb (Z.eqb z 0)
  | PStr s => negb (bool_decide (s = EmptyString))
  | PList l => match l with [] => false | _ => true end
  | PDict d => match d with [] => false | _ => true end
  end.

(** [v[k]] for a string [k]: only a dict can be subscripted by a string. *)
Definition getitem (v : pyval) (k : string) : result pyval :=
  match v with
  | PDict d =>
      match get d k with
      | Some x => Ok x
      | None => Raise (KeyError k)
      end
  | PList _ => Raise (TypeError "list indices must be integers or slices, not str")
  | PStr _ => Raise (TypeError "string indices must be integers")
  | PNone | PBool _ | PInt _ => Raise (TypeError "object is not subscriptable")
  end.

(** [x == v] for a string [x]: a string equals only the same string. *)
Definition str_eq (x : string) (v : pyval) : bool :=
  match v with
  | PStr s => bool_decide (s = x)
  | _ => false
  end.

(** [x in s] for two strings: [x] occurs in [s]. *)
Definition occurs (x s : string) : bool :=
  match String.index 0 x s with Some _ => true | None => false end.

(** [x in c] for a string [x]. *)
Definition contains (x : string) (c : pyval) : result bool :=
  match c with
  | PList l => Ok (any (str_eq x) l)
  | PDict d => Ok (bool_decide (x ∈ keys d))
  | PStr s => Ok (occurs x s)
  | PNone | PBool _ | PInt _ => Raise (TypeError "argument is not iterable")
  end.

(** [for x in v]: the elements of a list, the keys of a dict, the
    characters of a string. *)
Definition iter (v : pyval) : result (list pyval) :=
  match v with
  | PList l => Ok l
  | PDict d => Ok (PStr <$> keys d)
  | PStr s => Ok ((λ c, PStr (String c EmptyString)) <$> list_ascii_of_string s)
  | PNone | PBool _ | PInt _ => Raise (TypeError "object is not iterable")
  end.

(** Equality of hashable values, as a set compares its members: [True] and
    [False] are the integers 1 and 0. *)
Definition eqb (a b : pyval) : bool :=
  match a, b with
  | PNone, PNone => true
  | PStr s, PStr t => bool_decide (s = t)
  | PBool x, PBool y => bool_decide (x = y)
  | PInt x, PInt y => Z.eqb x y
  | PBool x, PInt y | PInt y, PBool x => Z.eqb (if x then 1 else 0) y
  | _, _ => false
  end.

(** [hash(v)]: lists and dicts are unhashable. *)
Definition hashable (v : pyval) : result unit :=
  match v with
  | PList _ => Raise (TypeError "unhashable type: 'list'")
  | PDict _ => Raise (TypeError "unhashable type: 'dict'")
  | _ => Ok tt
  end.

(** A set of hashable values, in the order its members were added. *)
Definition pyset : Type := list pyval.

(** [v in s]: the value is hashed, then compared with the members. *)
Definition set_contains (v : pyval) (s : pyset) : result bool :=
  do_ hashable v; Ok (any (eqb v) s).

(** [s.add(v)] *)
Definition set_add (s : pyset) (v : pyval) : result pyset :=
  do b <- set_contains v s; Ok (if b then s else (s ++ [v])%list).

(** [{f(x) for x in l}] *)
Fixpoint set_comp {A} (f : A → result pyval) (l : list A) (acc : pyset)
  : result pyset :=
  match l with
  | [] => Ok acc
  | x :: l' => do v <- f x; do acc' <- set_add acc v; set_comp f l' acc'
  end.

(** [{x for x in l if cond(x)}] for strings. *)
Fixpoint str_set_comp (cond : string → result bool) (l : list string)
  : result (gset string) :=
  match l with
  | [] => Ok ∅
  | x :: l' =>
      do b <- cond x; do s <- str_set_comp cond l';
      Ok (if b then {[x]} ∪ s else s)
  end.

(** [m[k]] for a dict kept as a finite map. *)
Definition subscript {V} (m : gmap string V) (k : string) : result V :=
  match m !! k with
  | Some v => Ok v
  | None => Raise (KeyError k)
  end.

(** A class attribute that is [None] or a string. *)
Definition attr : Type := option string.

Definition attr_truthy (a : attr) : bool :=
  match a with
  | Some s => negb (bool_decide (s = EmptyString))
  | None => false
  end.

(** An attribute is missing when it is [None] or the empty string. *)
Definition attr_missing (a : attr) : Prop := a = None ∨ a = Some EmptyString.

(** [format(a)], as an f-string prints the attribute. *)
Definition attr_format (a : attr) : string :=
  match a with Some s => s | None => "None" end.

(** [s + a] *)
Definition str_add (s : string) (a : attr) : result string :=
  match a with
  | Some t => Ok (s +:+ t)
  | None => Raise (TypeError "can only concatenate str (not NoneType) to str")
  end.

Definition attr_value (a : attr) : pyval :=
  match a with Some s => PStr s | None => PNone end.

End py.
Export py.

(** Iteration order of a set of strings.  CPython fixes no order; whatever it
    is, it enumerates the members. *)
Module PySet.
Class order : Type := {
  iter : gset string → list string;
  iter_elements : ∀ s, iter s ≡ₚ elements s;
}.
End PySet.

(** ** The modules activities.py imports *)

(** common.py is not among the sources: the functions and the configuration
    table that activities.py uses from it are parameters. *)
Module common.

Module Config.
Class table : Type := {
  macos_versions : gmap string string;
}.
End Config.

Class functions : Type := {
  fake_ec2 : pyval → bool;
  url : string → string;
  fetch : string → string;
  format_env : dict string → string;
  env_for_version : pyval → gmap string string;
  build_status : pyval → pyval → string;
  build_statuses : pyval → dict string;
  is_linux : string → bool;
  is_nightly : pyval → bool;
}.

(** The same functions, with another answer of the build-status service. *)
Definition with_build_statuses (F : functions)
    (statuses : pyval → dict string) : functions := {|
  fake_ec2 := fake_ec2;
  url := url;
  fetch := fetch;
  format_env := format_env;
  env_for_version := env_for_version;
  build_status := build_status;
  build_statuses := statuses;
  is_linux := is_linux;
  is_nightly := is_nightly;
|}.

End common.

(** The part of AWS that activities.py queries through boto3: the EC2
    instances of the account with their tags and state, and the listing of an
    S3 bucket under a prefix. *)
Module boto3.

Record Instance : Type := {
  tags : gmap string string;
  state_name : string;
}.

Record Filter : Type := {
  Name : string;
  Values : list string;
}.

(** DescribeInstances filters: [tag:<key>] selects the instances whose tag
    <key> has one of the values, [instance-state-name] the instances in one
    of the states; the module uses no other filter, and none is modelled.
    EC2 reads the characters [*] and [?] of a value as wildcards: the
    comparison below is the one of EC2 for a [literal] value, one that has
    neither (nor the backslash that escapes them). *)
Definition literal (value : string) : bool :=
  negb (occurs "*" value) && negb (occurs "?" value)
  && negb (occurs (String (ascii_of_nat 92) EmptyString) value).

Definition filter_matches (f : Filter) (i : Instance) : bool :=
  match Name f with
  | String "t" (String "a" (String "g" (String ":" key))) =>
      match tags i !! key with
      | Some v => bool_decide (v ∈ Values f)
      | None => false
      end
  | name =>
      bool_decide (name = "instance-state-name") &&
      bool_decide (state_name i ∈ Values f)
  end.

Record S3Object : Type := {
  Key : string;
}.

Record ListObjectsOutput : Type := {
  Contents : option (list S3Object);
}.

Class account : Type := {
  ec2_instances : list Instance;
  s3_list_objects : string → string → ListObjectsOutput;
}.

(** [boto3.resource('ec2').instances.filter(Filters=fs, MaxResults=n)]: the
    collection pages through every instance that matches all the filters;
    [MaxResults] is the size of a page. *)
Definition instances_filter {AWS : account} (fs : list Filter) : list Instance :=
  filter (λ i, forallb (λ f, filter_matches f i) fs = true) ec2_instances.

End boto3.

(** [json.loads(request.urlopen(url).read().decode('ascii'))]: the JSON
    document served at a URL. *)
Module request.
Class web : Type := {
  urlopen_json : string → pyval;
}.
End request.

(** ** class Activity *)

Module Activity.

(** The class attributes, as an instance reads them through [self]. *)
Record class : Type := {
  __name__ : string;
  ec2_iam_arn : attr;
  activity_arn : attr;
  script_name : attr;
  init_script : attr;
}.

(** The instance attributes. *)
Record t : Type := {
  event : pyval;
  fake_ec2 : bool;
}.

(** Subclasses must override the first three. *)
Definition cls : class := {|
  __name__ := "Activity";
  ec2_iam_arn := None;
  activity_arn := None;
  script_name := None;
  init_script := None;
|}.

Definition __init__ {F : common.functions} (event : pyval) : t := {|
  event := event;
  fake_ec2 := common.fake_ec2 event;
|}.

Definition version (self : t) : result pyval := getitem (event self) "version".

Definition platform (self : t) : result pyval := getitem (event self) "platform".

Definition worker_env (self : t) : dict string := [].

Definition task_env (self : t) : result (dict string) := Ok [].

Definition needs_ec2_worker (self : t) : result bool := Ok true.

Definition has_ec2_workers {AWS : boto3.account} (cls : class) (self : t)
  : result bool :=
  match activity_arn cls with
  | None =>
      Raise (ParamValidationError
               "Invalid type for parameter Filters[0].Values[0]")
  | Some arn =>
      match boto3.instances_filter [
        {| boto3.Name := "tag:ActivityArn"; boto3.Values := [arn] |};
        {| boto3.Name := "instance-state-name";
           boto3.Values := ["pending"; "running"] |}
      ] with
      | _ :: _ => Ok true
      | [] => Ok false
      end
  end.

(** The lines of the f-string of [UserData] are indented by eight spaces;
    a line [VAR="{value}"] of it is [assign VAR value]. *)
Definition indent : string := "        ".

Definition assign (var value : string) : string :=
  indent +:+ var +:+ "=" +:+ dq +:+ value +:+ dq +:+ nl.

(** [worker_env] is the dict that [self.worker_env()] returns in the class of
    [self]. *)
Definition ec2_params {F : common.functions} (cls : class)
    (worker_env : dict string) (self : t) : result (dict pyval) :=
  if negb (attr_truthy (ec2_iam_arn cls))
     || negb (attr_truthy (activity_arn cls))
     || negb (attr_truthy (script_name cls))
  then Raise (Exception ("missing config in " +:+ __name__ cls))
  else
    do path <- (if fake_ec2 self then Ok "aws/hhvm1/worker/dummy-task.sh"
                else str_add "aws/userdata/" (script_name cls));
    let script_url := common.url path in
    let init_url :=
      match init_script cls with
      | Some s => if attr_truthy (Some s) then common.url s else EmptyString
      | None => EmptyString
      end in
    Ok [
      ("ImageId", PStr "ami-6e1a0117");
      ("MaxCount", PInt 1);
      ("MinCount", PInt 1);
      ("InstanceType", PStr "t2.micro");
      ("SecurityGroups", PList [PStr "hhvm-binary-package-builders"]);
      ("InstanceInitiatedShutdownBehavior", PStr "terminate");
      ("IamInstanceProfile", PDict [("Arn", attr_value (ec2_iam_arn cls))]);
      ("KeyName", PStr "hhvm-package-builders");
      ("TagSpecifications", PList [PDict [
        ("ResourceType", PStr "instance");
        ("Tags", PList [
          PDict [("Key", PStr "Name");
                 ("Value", PStr ("ww-0-" +:+ __name__ cls))];
          PDict [("Key", PStr "ActivityArn");
                 ("Value", attr_value (activity_arn cls))]
        ])
      ]]);
      ("UserData", PStr (
        "#!/bin/bash" +:+ nl +:+
        assign "ACTIVITY_ARN" (attr_format (activity_arn cls)) +:+
        assign "SCRIPT_URL" script_url +:+
        assign "INIT_URL" init_url +:+
        indent +:+ common.format_env worker_env +:+ nl +:+
        indent +:+ common.fetch "aws/hhvm1/worker/worker.sh" +:+ nl +:+
        "      "))
    ].

End Activity.

(** The root volume every override of [ec2_params] asks for: gp2, deleted
    on termination, of the given size in GB. *)
Definition BlockDeviceMappings (size : Z) : string * pyval :=
  ("BlockDeviceMappings", PList [PDict [
    ("DeviceName", PStr "/dev/sda1");
    ("Ebs", PDict [
      ("DeleteOnTermination", PBool true);
      ("VolumeSize", PInt size);
      ("VolumeType", PStr "gp2")
    ])
  ]]).

(** ** class MakeSourceTarball(Activity) *)

Module MakeSourceTarball.

Definition cls : Activity.class := {|
  Activity.__name__ := "MakeSourceTarball";
  Activity.ec2_iam_arn :=
    Some "arn:aws:iam::223121549624:instance-profile/hhvm-source-tarball-builder";
  Activity.activity_arn :=
    Some "arn:aws:states:us-west-2:223121549624:activity:hhvm-make-source-tarball";
  Activity.script_name := Some "make-source-tarball.sh";
  Activity.init_script := None;
|}.

Definition should_run {F : common.functions} {AWS : boto3.account} (self : Activity.t)
  : result bool :=
  do version <- Activity.version self;
  let env := common.env_for_version version in
  do bucket <- subscript env "S3_BUCKET";
  do prefix <- subscript env "S3_PATH";
  let contents :=
    default [] (boto3.Contents (boto3.s3_list_objects bucket prefix)) in
  do found <- any_gen
    (λ obj, do path <- subscript env "S3_PATH";
            Ok (bool_decide (boto3.Key obj = path)))
    contents;
  Ok (negb found).

Definition ec2_params {F : common.functions} (self : Activity.t)
  : result (dict pyval) :=
  do params <- Activity.ec2_params cls (Activity.worker_env self) self;
  Ok (update params [BlockDeviceMappings 16]).

End MakeSourceTarball.

(** ** class MakeBinaryPackage(Activity) *)

Module MakeBinaryPackage.

Definition cls : Activity.class := {|
  Activity.__name__ := "MakeBinaryPackage";
  Activity.ec2_iam_arn :=
    Some "arn:aws:iam::223121549624:instance-profile/hhvm-binary-package-builder";
  Activity.activity_arn :=
    Some "arn:aws:states:us-west-2:223121549624:activity:hhvm-make-binary-package";
  Activity.script_name := Some "make-binary-package.sh";
  Activity.init_script := None;
|}.

Definition should_run {F : common.functions} (self : Activity.t) : result bool :=
  do version <- Activity.version self;
  do platform <- Activity.platform self;
  Ok (bool_decide (common.build_status version platform = "not_built")).

Definition ec2_params {F : common.functions} (self : Activity.t)
  : result (dict pyval) :=
  do params <- Activity.ec2_params cls (Activity.worker_env self) self;
  Ok (update params [
    ("InstanceType", PStr "m5.2xlarge");
    BlockDeviceMappings 95
  ]).

End MakeBinaryPackage.

(** ** any_unpublished *)

Definition any_unpublished (statuses : dict string) : result bool :=
  if any (λ s, bool_decide (s = "not_built")) (values statuses) then
    Raise (Exception
      ("cannot publish because there are unbuilt packages: " +:+
       join ", "
         (filter (λ p, get statuses p = Some "not_built") (keys statuses))))
  else
    Ok (any (λ s, bool_decide (s = "built_not_published")) (values statuses)).


(** ** class PublishBinaryPackages(Activity) *)

Module PublishBinaryPackages.

Definition cls : Activity.class := {|
  Activity.__name__ := "PublishBinaryPackages";
  Activity.ec2_iam_arn :=
    Some "arn:aws:iam::223121549624:instance-profile/hhvm-repo-builders";
  Activity.activity_arn :=
    Some "arn:aws:states:us-west-2:223121549624:activity:hhvm-publish-binary-packages";
  Activity.script_name := Some "update-repos.sh";
  Activity.init_script := Some "aws/hhvm1/worker/init/update-repos.sh";
|}.

Definition task_env (self : Activity.t) : result (dict string) :=
  Ok [("REPOS_ONLY", "1")].

Definition should_run {F : common.functions} (self : Activity.t) : result bool :=
  do version <- Activity.version self;
  any_unpublished
    (dict_comp (λ platform status, common.is_linux platform)
       (common.build_statuses version)).

Definition ec2_params {F : common.functions} (self : Activity.t)
  : result (dict pyval) :=
  do params <- Activity.ec2_params cls (Activity.worker_env self) self;
  Ok (update params [
    ("Placement", PDict [("AvailabilityZone", PStr "us-west-2a")]);
    BlockDeviceMappings 100
  ]).

(** These access a shared EBS volume, so only one can run at a time. *)
Definition needs_ec2_worker {AWS : boto3.account} (self : Activity.t)
  : result bool :=
  do busy <- Activity.has_ec2_workers cls self;
  Ok (negb busy).

End PublishBinaryPackages.

(** ** class PublishSourceTarball(Activity) *)

Module PublishSourceTarball.

Definition cls : Activity.class := {|
  Activity.__name__ := "PublishSourceTarball";
  Activity.ec2_iam_arn :=
    Some "arn:aws:iam::223121549624:instance-profile/hhvm-source-tarball-builder";
  Activity.activity_arn :=
    Some "arn:aws:states:us-west-2:223121549624:activity:hhvm-publish-source-tarball";
  Activity.script_name := Some "publish-release-source.sh";
  Activity.init_script := None;
|}.

(** [not A and B]: [B] is evaluated only when [not A] is true. *)
Definition should_run {F : common.functions} (self : Activity.t) : result bool :=
  do version <- Activity.version self;
  if negb (common.is_nightly version) then
    do version' <- Activity.version self;
    any_unpublished
      (dict_comp
         (λ platform status,
            bool_decide (platform ∈ ({["source"; "source_gpg"]} : gset string)))
         (common.build_statuses version'))
  else Ok false.

End PublishSourceTarball.

(** ** class PublishDockerImages(Activity) *)

Module PublishDockerImages.

Definition cls : Activity.class := {|
  Activity.__name__ := "PublishDockerImages";
  Activity.ec2_iam_arn :=
    Some "arn:aws:iam::223121549624:instance-profile/hhvm-repo-builders";
  Activity.activity_arn :=
    Some "arn:aws:states:us-west-2:223121549624:activity:hhvm-publish-docker-images";
  Activity.script_name := Some "update-repos.sh";
  Activity.init_script := None;
|}.

Definition task_env (self : Activity.t) : result (dict string) :=
  Ok [("DOCKER_ONLY", "1")].

Definition docker_tags {W : request.web} (self : Activity.t) (repo : string)
  : result pyset :=
  do tags <- iter (request.urlopen_json
    ("https://index.docker.io/v1/repositories/hhvm/" +:+ repo +:+ "/tags"));
  set_comp (λ tag, getitem tag "name") tags [].

(** [A or B]: [B] is evaluated only when [A] is false. *)
Definition should_run {W : request.web} (self : Activity.t) : result bool :=
  do version <- Activity.version self;
  do tags <- docker_tags self "hhvm";
  do present <- set_contains version tags;
  if negb present then Ok true
  else
    do version' <- Activity.version self;
    do tags' <- docker_tags self "hhvm-proxygen";
    do present' <- set_contains version' tags';
    Ok (negb present').

End PublishDockerImages.

(** ** class BuildAndPublishMacOS(Activity) *)

Module BuildAndPublishMacOS.

Definition cls : Activity.class := {|
  Activity.__name__ := "BuildAndPublishMacOS";
  Activity.ec2_iam_arn :=
    Some "arn:aws:iam::223121549624:instance-profile/hhvm-macos-builds-triggerer";
  Activity.activity_arn :=
    Some "arn:aws:states:us-west-2:223121549624:activity:hhvm-build-and-publish-macos";
  Activity.script_name := Some "trigger-macos-builds.sh";
  Activity.init_script := None;
|}.

(** [self.event['buildInput']['platforms']] *)
Definition input_platforms (self : Activity.t) : result pyval :=
  do buildInput <- getitem (Activity.event self) "buildInput";
  getitem buildInput "platforms".

(** The keys of [Config.macos_versions] are visited in the order of the
    table; [contains] raises for every key or for none, so the order is not
    observable and the enumeration of the finite map stands for it. *)
Definition platforms_to_build {F : common.functions} {T : common.Config.table}
    (self : Activity.t) : result (gset string) :=
  let requested := dom common.Config.macos_versions in
  do platforms <- input_platforms self;
  do requested <-
    (if truthy platforms then
       str_set_comp
         (λ p, do platforms' <- input_platforms self; contains p platforms')
         (elements requested)
     else Ok requested);
  if bool_decide (requested = ∅) then Ok ∅
  else
    do version <- Activity.version self;
    Ok (list_to_set
          (keys (filter
                   (λ item, item.2 ≠ "succeeded" ∧ item.1 ∈ requested)
                   (common.build_statuses version)))).

Definition worker_env (self : Activity.t) : dict string :=
  [("SKIP_SEND_TASK_SUCCESS", "1")].

Definition task_env {F : common.functions} {T : common.Config.table} {O : PySet.order}
    (self : Activity.t) : result (dict string) :=
  do platforms <- platforms_to_build self;
  if bool_decide (size platforms = size common.Config.macos_versions) then
    Ok []
  else if bool_decide (size platforms = 1) then
    match PySet.iter platforms with
    | p :: _ =>
        do v <- subscript common.Config.macos_versions p;
        Ok [("PLATFORM", v)]
    | [] => Raise StopIteration
    end
  else
    Raise (Exception
      ("we can only build all platforms or a single platform, but got: " +:+
       join ", " (PySet.iter platforms))).

Definition should_run {F : common.functions} {T : common.Config.table}
    (self : Activity.t) : result bool :=
  do platforms <- platforms_to_build self;
  Ok (negb (bool_decide (platforms = ∅))).

End BuildAndPublishMacOS.

(** ** The classes of the module and the resolution of their methods *)

Module classes.

Inductive name : Type :=
| Activity
| MakeSourceTarball
| MakeBinaryPackage
| PublishBinaryPackages
| PublishSourceTarball
| PublishDockerImages
| BuildAndPublishMacOS.

#[global] Instance name_eq_dec : EqDecision name.
Proof. solve_decision. Defined.

(** The subclasses of [Activity], in the order of the file. *)
Definition subclasses : list name := [
  MakeSourceTarball; MakeBinaryPackage; PublishBinaryPackages;
  PublishSourceTarball; PublishDockerImages; BuildAndPublishMacOS
].

Definition cls (c : name) : Activity.class :=
  match c with
  | Activity => Activity.cls
  | MakeSourceTarball => MakeSourceTarball.cls
  | MakeBinaryPackage => MakeBinaryPackage.cls
  | PublishBinaryPackages => PublishBinaryPackages.cls
  | PublishSourceTarball => PublishSourceTarball.cls
  | PublishDockerImages => PublishDockerImages.cls
  | BuildAndPublishMacOS => BuildAndPublishMacOS.cls
  end.

Definition worker_env (c : name) (self : Activity.t) : dict string :=
  match c with
  | BuildAndPublishMacOS => BuildAndPublishMacOS.worker_env self
  | _ => Activity.worker_env self
  end.

Definition needs_ec2_worker {AWS : boto3.account} (c : name) (self : Activity.t)
  : result bool :=
  match c with
  | PublishBinaryPackages => PublishBinaryPackages.needs_ec2_worker self
  | _ => Activity.needs_ec2_worker self
  end.

Definition ec2_params {F : common.functions} (c : name) (self : Activity.t)
  : result (dict pyval) :=
  match c with
  | MakeSourceTarball => MakeSourceTarball.ec2_params self
  | MakeBinaryPackage => MakeBinaryPackage.ec2_params self
  | PublishBinaryPackages => PublishBinaryPackages.ec2_params self
  | _ => Activity.ec2_params (cls c) (worker_env c self) self
  end.

End classes.

(** ** An example deployment

    One account, one registry and one implementation of the parameters, on
    which the theorems below are instantiated. *)

Module scenario.

Definition functions : common.functions := {|
  common.fake_ec2 := λ event,
    match getitem event "fake_ec2" with Ok v => truthy v | Raise _ => false end;
  common.url := λ path, "https://example.org/packaging/" +:+ path;
  common.fetch := λ path, "# " +:+ path;
  common.format_env := λ env,
    join nl ((λ kv, kv.1 +:+ "=" +:+ dq +:+ kv.2 +:+ dq) <$> env);
  common.env_for_version := λ version,
    {[ "S3_BUCKET" := "hhvm-downloads";
       "S3_PATH" := "source/hhvm-4.56.0.tar.gz" ]};
  common.build_status := λ version platform, "not_built";
  common.build_statuses := λ version, [
    ("source", "not_built");
    ("source_gpg", "built_not_published");
    ("ubuntu-20.04-focal", "succeeded");
    ("macos-catalina", "succeeded");
    ("macos-mojave", "not_built")
  ];
  common.is_linux := λ platform, occurs "ubuntu" platform;
  common.is_nightly := λ version,
    match version with PStr s => occurs "nightly" s | _ => false end;
|}.

Definition table : common.Config.table := {|
  common.Config.macos_versions :=
    {[ "macos-catalina" := "10.15"; "macos-mojave" := "10.14" ]};
|}.

Definition account : boto3.account := {|
  boto3.ec2_instances := [
    {| boto3.tags := {[ "Name" := "ww-0-MakeBinaryPackage" ]};
       boto3.state_name := "running" |};
    {| boto3.tags := {[ "ActivityArn" :=
         "arn:aws:states:us-west-2:223121549624:activity:hhvm-publish-binary-packages" ]};
       boto3.state_name := "terminated" |}
  ];
  boto3.s3_list_objects := λ bucket prefix,
    {| boto3.Contents := Some [ {| boto3.Key := prefix +:+ ".sig" |} ] |};
|}.

Definition web : request.web := {|
  request.urlopen_json := λ url,
    PList [PDict [("layer", PStr EmptyString); ("name", PStr "4.55.0")];
           PDict [("layer", PStr EmptyString); ("name", PStr "latest")]];
|}.

Definition order : PySet.order := {|
  PySet.iter := elements;
  PySet.iter_elements := λ s, Permutation_refl (elements s);
|}.

Definition event : pyval := PDict [
  ("version", PStr "4.56.0");
  ("platform", PStr "ubuntu-20.04-focal");
  ("buildInput", PDict [("platforms", PList [])]);
  ("fake_ec2", PBool true)
].

Definition nightly_event : pyval := PDict [
  ("version", PStr "2020.05.01-nightly");
  ("buildInput", PDict [("platforms", PNone)])
].

Definition self : Activity.t := Activity.__init__ (F := functions) event.

Definition nightly_self : Activity.t :=
  Activity.__init__ (F := functions) nightly_event.

(** An account in which a publisher of binary packages is starting. *)
Definition busy_account : boto3.account := {|
  boto3.ec2_instances := [
    {| boto3.tags := {[
         "Name" := "ww-0-PublishBinaryPackages";
         "ActivityArn" :=
           "arn:aws:states:us-west-2:223121549624:activity:hhvm-publish-binary-packages" ]};
       boto3.state_name := "pending" |}
  ];
  boto3.s3_list_objects := λ bucket prefix,
    {| boto3.Contents := Some [ {| boto3.Key := prefix |} ] |};
|}.

(** A table of three macOS versions, and an event that asks for two. *)
Definition table3 : common.Config.table := {|
  common.Config.macos_versions :=
    {[ "macos-catalina" := "10.15"; "macos-mojave" := "10.14";
       "macos-high_sierra" := "10.13" ]};
|}.

Definition statuses3 (version : pyval) : dict string := [
  ("macos-catalina", "not_built");
  ("macos-mojave", "built_not_published");
  ("macos-high_sierra", "not_built")
].

Definition event3 : pyval := PDict [
  ("version", PStr "4.56.0");
  ("buildInput",
   PDict [("platforms", PList [PStr "macos-catalina"; PStr "macos-mojave"])])
].

(** The launch configurations of two activities on [event]. *)
Definition binary_package_params : dict pyval :=
  Eval vm_compute in
    match classes.ec2_params (F := functions) classes.MakeBinaryPackage self
    with Ok params => params | Raise _ => [] end.

Definition docker_images_params : dict pyval :=
  Eval vm_compute in
    match classes.ec2_params (F := functions) classes.PublishDockerImages self
    with Ok params => params | Raise _ => [] end.

End scenario.

(** ** Notions used to state the further properties *)

(** The platforms the event asks for, among those of the table: every
    platform of [Config.macos_versions] when the event names none, and the
    ones found in [buildInput.platforms] otherwise. *)
Definition requested_by {T : common.Config.table} (asked : pyval)
    (p : string) : Prop :=
  is_Some (common.Config.macos_versions !! p) ∧
  (truthy asked = true → contains p asked = Ok true).

(** A platform is left to build when its status is not 'succeeded'. *)
Definition to_build {F : common.functions} (version : pyval) (p : string)
  : Prop :=
  ∃ status, (p, status) ∈ common.build_statuses version ∧
            status ≠ "succeeded".

(** ** Further inputs on which the properties are instantiated *)

Module cases.

(** An event that asks for a platform that is already built. *)
Definition built_event : pyval := PDict [
  ("version", PStr "4.56.0");
  ("buildInput", PDict [("platforms", PList [PStr "macos-catalina"])])
].

(** An event whose platforms are not a container. *)
Definition number_event : pyval := PDict [
  ("version", PStr "4.56.0");
  ("buildInput", PDict [("platforms", PInt 1)])
].

End cases.

(** ** The launch configuration, class by class *)

(** What the overrides of [ec2_params] put in the configuration: the
    instance type, the size of the root volume in GB when one is asked for,
    and the availability zone when one is imposed. *)
Definition instance_type (c : classes.name) : string :=
  match c with
  | classes.MakeBinaryPackage => "m5.2xlarge"
  | _ => "t2.micro"
  end.

Definition volume_size (c : classes.name) : option Z :=
  match c with
  | classes.MakeSourceTarball => Some 16%Z
  | classes.MakeBinaryPackage => Some 95%Z
  | classes.PublishBinaryPackages => Some 100%Z
  | _ => None
  end.

Definition availability_zone (c : classes.name) : option string :=
  match c with
  | classes.PublishBinaryPackages => Some "us-west-2a"
  | _ => None
  end.

(** The keys of the dict that [Activity.ec2_params] builds, in order. *)
Definition base_keys : list string := [
  "ImageId"; "MaxCount"; "MinCount"; "InstanceType"; "SecurityGroups";
  "InstanceInitiatedShutdownBehavior"; "IamInstanceProfile"; "KeyName";
  "TagSpecifications"; "UserData"
].

(** ** Properties *)

(** *** Auxiliary facts on results and on [any] *)

Lemma raises_not_returns {A} (r : result A) : raises r ↔ ¬ returns r.
Proof. destruct r; simpl; tauto. Qed.

Lemma raises_not_returns_neg {A} (r : result A) : ¬ raises r → returns r.
Proof. destruct r; simpl; tauto. Qed.

Lemma any_eq_true {A} (p : A → bool) (l : list A) :
  any p l = true ↔ ∃ x, x ∈ l ∧ p x = true.
Proof.
  unfold any. rewrite existsb_exists.
  split; intros (x & Hx & Hp); exists x; split; auto;
    by apply list_elem_of_In.
Qed.

Lemma any_is_member (x : string) (l : list string) :
  any (λ s, bool_decide (s = x)) l = true ↔ x ∈ l.
Proof.
  rewrite any_eq_true. split.
  - intros (y & Hy & Heq). apply bool_decide_eq_true in Heq. by subst.
  - intros Hx. exists x. split; [done | by apply bool_decide_eq_true].
Qed.

(** *** any_unpublished *)

(** C1. For every status mapping, [any_unpublished] raises exactly when some
    value of the mapping is 'not_built'; when none is, it returns, and what
    it returns is [True] exactly when some value is 'built_not_published'. *)
Theorem any_unpublished_raises_iff_not_built (statuses : dict string) :
  (raises (any_unpublished statuses) ↔ "not_built" ∈ values statuses) ∧
  ("not_built" ∉ values statuses →
     ∃ b, any_unpublished statuses = Ok b ∧
          (b = true ↔ "built_not_published" ∈ values statuses)).
Proof.
  unfold any_unpublished.
  destruct (any _ (values statuses)) eqn:Hany; simpl.
  - apply any_is_member in Hany. split; [tauto | intros Hno; contradiction].
  - assert (Hno : "not_built" ∉ values statuses).
    { intros Hin. apply any_is_member in Hin. congruence. }
    split; [tauto |]. intros _. eexists. split; [reflexivity |].
    apply any_is_member.
Qed.

(** *** BuildAndPublishMacOS.task_env *)

Lemma str_set_comp_subseteq cond l s :
  str_set_comp cond l = Ok s → s ⊆ list_to_set l.
Proof.
  revert s. induction l as [| x l IH]; simpl; intros s Hs.
  - injection Hs as Hs. subst s. done.
  - destruct (cond x) as [b |]; simpl in Hs; [| discriminate].
    destruct (str_set_comp cond l) as [s' |]; simpl in Hs; [| discriminate].
    injection Hs as Hs. subst s. specialize (IH s' eq_refl).
    destruct b; [by apply union_mono_l | by apply union_subseteq_r'].
Qed.

Lemma platforms_to_build_requested
    {F : common.functions} {T : common.Config.table} self platforms :
  BuildAndPublishMacOS.platforms_to_build self = Ok platforms →
  platforms ⊆ dom common.Config.macos_versions.
Proof.
  unfold BuildAndPublishMacOS.platforms_to_build.
  destruct (BuildAndPublishMacOS.input_platforms self) as [p |]; simpl;
    [| discriminate].
  set (all := dom common.Config.macos_versions).
  assert (Hreq : ∀ requested : gset string,
    requested ⊆ all →
    (if bool_decide (requested = ∅) then Ok ∅
     else do version <- Activity.version self;
          Ok (list_to_set (keys (filter
                (λ item, item.2 ≠ "succeeded" ∧ item.1 ∈ requested)
                (common.build_statuses version))))) = Ok platforms →
    platforms ⊆ all).
  { intros requested Hsub. case_bool_decide.
    - intros [= <-]. set_solver.
    - destruct (Activity.version self) as [v |]; simpl; [| discriminate].
      intros [= <-]. intros x Hx.
      apply elem_of_list_to_set, list_elem_of_fmap in Hx
        as ([k st] & -> & Hin).
      apply list_elem_of_filter in Hin as [[_ Hk] _]. by apply Hsub. }
  destruct (truthy p).
  - destruct (str_set_comp _ _) as [requested |] eqn:Hcomp; simpl;
      [| discriminate].
    apply Hreq. apply str_set_comp_subseteq in Hcomp.
    intros x Hx. apply Hcomp in Hx.
    by apply elem_of_list_to_set, elem_of_elements in Hx.
  - simpl. by apply Hreq.
Qed.

Lemma platforms_to_build_size
    {F : common.functions} {T : common.Config.table} self platforms :
  BuildAndPublishMacOS.platforms_to_build self = Ok platforms →
  (size platforms ≤ size common.Config.macos_versions)%nat.
Proof.
  intros Hp. apply platforms_to_build_requested in Hp.
  rewrite <- size_dom. by apply subseteq_size.
Qed.

Lemma iter_singleton {O : PySet.order} (s : gset string) :
  size s = 1 → ∃ x, PySet.iter s = [x] ∧ x ∈ s.
Proof.
  intros Hsize. apply size_1_elem_of in Hsize as [x Hx].
  apply leibniz_equiv in Hx. subst s. exists x. split; [| set_solver].
  pose proof (PySet.iter_elements {[x]}) as Hperm.
  rewrite elements_singleton in Hperm.
  by apply Permutation_singleton_r in Hperm.
Qed.

(** C2. When [platforms_to_build] returns a set, [task_env] raises exactly
    when the size of that set is neither the number of entries of
    [Config.macos_versions] nor 1.  When [should_run] has returned [True] and
    [Config.macos_versions] has at most two entries, [task_env] returns. *)
Theorem task_env_raises_iff
    {F : common.functions} {T : common.Config.table} {O : PySet.order}
    (self : Activity.t) :
  (∀ platforms,
     BuildAndPublishMacOS.platforms_to_build self = Ok platforms →
     (raises (BuildAndPublishMacOS.task_env self) ↔
      size platforms ≠ size common.Config.macos_versions ∧
      size platforms ≠ 1)) ∧
  (BuildAndPublishMacOS.should_run self = Ok true →
   (size common.Config.macos_versions ≤ 2)%nat →
   returns (BuildAndPublishMacOS.task_env self)).
Proof.
  assert (Hfirst : ∀ platforms,
     BuildAndPublishMacOS.platforms_to_build self = Ok platforms →
     (raises (BuildAndPublishMacOS.task_env self) ↔
      size platforms ≠ size common.Config.macos_versions ∧
      size platforms ≠ 1)).
  { intros platforms Hp. unfold BuildAndPublishMacOS.task_env.
    rewrite Hp. simpl.
    case_bool_decide as Hall; simpl; [tauto |].
    case_bool_decide as Hone; simpl; [| tauto].
    destruct (iter_singleton platforms Hone) as (x & -> & Hx).
    apply platforms_to_build_requested in Hp.
    apply Hp, elem_of_dom in Hx as [v Hv].
    unfold subscript. rewrite Hv. simpl. tauto. }
  split; [exact Hfirst |].
  intros Hrun Hle. apply raises_not_returns_neg.
  unfold BuildAndPublishMacOS.should_run in Hrun.
  destruct (BuildAndPublishMacOS.platforms_to_build self)
    as [platforms |] eqn:Hp; simpl in Hrun; [| discriminate].
  injection Hrun as Hne. apply negb_true_iff, bool_decide_eq_false in Hne.
  rewrite (Hfirst platforms eq_refl).
  pose proof (platforms_to_build_size _ _ Hp) as Hsize.
  assert (size platforms ≠ 0).
  { intros Hz. apply size_empty_inv in Hz. by apply leibniz_equiv in Hz. }
  lia.
Qed.

(** *** Activity.ec2_params *)

Lemma attr_truthy_false (a : attr) : attr_truthy a = false ↔ attr_missing a.
Proof.
  unfold attr_missing. destruct a as [s |]; simpl.
  - rewrite negb_false_iff, bool_decide_eq_true. split.
    + intros ->. by right.
    + intros [Hn | Hs]; [discriminate Hn | by injection Hs].
  - split; [by left | done].
Qed.

Lemma attr_truthy_true (a : attr) :
  attr_truthy a = true ↔ ∃ s, a = Some s ∧ s ≠ EmptyString.
Proof.
  destruct a as [s |]; simpl.
  - rewrite negb_true_iff, bool_decide_eq_false. split.
    + intros Hs. by exists s.
    + intros (t & [= <-] & Ht). done.
  - split; [discriminate | intros (s & Hs & _); discriminate Hs].
Qed.

Lemma Activity_ec2_params_raises {F : common.functions} cls worker_env self :
  raises (Activity.ec2_params cls worker_env self) ↔
  attr_missing (Activity.ec2_iam_arn cls) ∨
  attr_missing (Activity.activity_arn cls) ∨
  attr_missing (Activity.script_name cls).
Proof.
  rewrite <- !attr_truthy_false. unfold Activity.ec2_params.
  destruct (attr_truthy (Activity.ec2_iam_arn cls)); simpl; [| tauto].
  destruct (attr_truthy (Activity.activity_arn cls)); simpl; [| tauto].
  destruct (attr_truthy (Activity.script_name cls)) eqn:Hscript; simpl;
    [| tauto].
  apply attr_truthy_true in Hscript as (script & -> & _).
  destruct (Activity.fake_ec2 self); simpl;
    (split; [intros [] | intros [? | [? | ?]]; discriminate]).
Qed.

Lemma bind_raises {A B} (r : result A) (f : A → result B) :
  (∀ a, returns (f a)) → raises (bind r f) ↔ raises r.
Proof.
  intros Hf. destruct r as [a |]; simpl; [| tauto].
  specialize (Hf a). destruct (f a); simpl in *; tauto.
Qed.

Lemma classes_ec2_params_raises {F : common.functions} c self :
  raises (classes.ec2_params c self) ↔
  raises (Activity.ec2_params (classes.cls c) (classes.worker_env c self) self).
Proof.
  destruct c; simpl; try tauto;
    unfold MakeSourceTarball.ec2_params, MakeBinaryPackage.ec2_params,
      PublishBinaryPackages.ec2_params;
    by apply bind_raises.
Qed.

Lemma subclasses_all (c : classes.name) :
  c ∈ classes.subclasses ↔ c ≠ classes.Activity.
Proof.
  unfold classes.subclasses. split.
  - intros Hc ->.
    repeat (apply elem_of_cons in Hc as [Hc | Hc]; [discriminate Hc |]).
    by apply elem_of_nil in Hc.
  - intros Hc. destruct c; [done | ..]; repeat constructor.
Qed.

(** C3, as amended. [Activity.ec2_params] raises exactly when one of the
    class attributes [ec2_iam_arn], [activity_arn], [script_name] is missing,
    whatever the class of the instance, and so does the [ec2_params] of
    every class of the module.  The module has six subclasses of [Activity];
    each of them sets the three attributes, and its [ec2_params] returns. *)
Theorem ec2_params_raises_iff_missing_config {F : common.functions} :
  (∀ cls worker_env self,
     raises (Activity.ec2_params cls worker_env self) ↔
     attr_missing (Activity.ec2_iam_arn cls) ∨
     attr_missing (Activity.activity_arn cls) ∨
     attr_missing (Activity.script_name cls)) ∧
  (∀ c self,
     raises (classes.ec2_params c self) ↔
     attr_missing (Activity.ec2_iam_arn (classes.cls c)) ∨
     attr_missing (Activity.activity_arn (classes.cls c)) ∨
     attr_missing (Activity.script_name (classes.cls c))) ∧
  (length classes.subclasses = 6 ∧ NoDup classes.subclasses ∧
   ∀ c, c ∈ classes.subclasses ↔ c ≠ classes.Activity) ∧
  (∀ c self,
     c ∈ classes.subclasses →
     ¬ attr_missing (Activity.ec2_iam_arn (classes.cls c)) ∧
     ¬ attr_missing (Activity.activity_arn (classes.cls c)) ∧
     ¬ attr_missing (Activity.script_name (classes.cls c)) ∧
     returns (classes.ec2_params c self)).
Proof.
  split; [apply @Activity_ec2_params_raises |].
  assert (Hall : ∀ c self,
     raises (classes.ec2_params c self) ↔
     attr_missing (Activity.ec2_iam_arn (classes.cls c)) ∨
     attr_missing (Activity.activity_arn (classes.cls c)) ∨
     attr_missing (Activity.script_name (classes.cls c))).
  { intros c self. rewrite classes_ec2_params_raises.
    apply Activity_ec2_params_raises. }
  split; [exact Hall |]. split.
  { split; [reflexivity |]. split; [| exact subclasses_all].
    apply (bool_decide_eq_true_1 _). vm_compute. reflexivity. }
  intros c self Hc. apply subclasses_all in Hc.
  assert (Hset : ¬ attr_missing (Activity.ec2_iam_arn (classes.cls c)) ∧
                 ¬ attr_missing (Activity.activity_arn (classes.cls c)) ∧
                 ¬ attr_missing (Activity.script_name (classes.cls c))).
  { rewrite <- !attr_truthy_false.
    destruct c; [done | ..]; simpl; repeat split; discriminate. }
  destruct Hset as (Hiam & Harn & Hscript). repeat split; try assumption.
  apply raises_not_returns_neg. rewrite Hall. tauto.
Qed.

(** C3, as stated, counts five subclasses: no list of five classes holds
    every subclass of [Activity]. *)
Lemma five_subclasses_counterexample :
  ¬ ∃ five : list classes.name,
      length five = 5 ∧ ∀ c, c ≠ classes.Activity → c ∈ five.
Proof.
  intros (five & Hlen & Hall).
  assert (Hsub : classes.subclasses ⊆+ five).
  { apply NoDup_submseteq.
    - apply (bool_decide_eq_true_1 _). vm_compute. reflexivity.
    - intros c Hc. by apply Hall, subclasses_all. }
  apply submseteq_length in Hsub. rewrite Hlen in Hsub.
  simpl in Hsub. lia.
Qed.

(** *** The launch configuration *)

Lemma get_setitem {V} (d : dict V) k v k' :
  get (setitem d k v) k' = if decide (k = k') then Some v else get d k'.
Proof.
  induction d as [| [k0 v0] d IH]; simpl.
  - done.
  - destruct (decide (k0 = k)) as [-> | Hne]; simpl.
    + by destruct (decide (k = k')).
    + rewrite IH. destruct (decide (k0 = k')) as [-> | ?]; [| done].
      by destruct (decide (k = k')).
Qed.

Lemma get_update_other {V} (d e : dict V) k :
  k ∉ keys e → get (update d e) k = get d k.
Proof.
  unfold update, keys. revert d.
  induction e as [| [k0 v0] e IH]; simpl; intros d Hk; [done |].
  apply not_elem_of_cons in Hk as [Hne Hk].
  rewrite IH by done. rewrite get_setitem.
  destruct (decide (k0 = k)); [congruence | done].
Qed.

Lemma get_update_is_Some {V} (d e : dict V) k :
  is_Some (get d k) → is_Some (get (update d e) k).
Proof.
  unfold update. revert d.
  induction e as [| [k0 v0] e IH]; simpl; intros d Hk; [done |].
  apply IH. rewrite get_setitem. by destruct (decide (k0 = k)).
Qed.

(** What [Activity.ec2_params] returns, when it returns, in the fields the
    claims are about. *)
Lemma Activity_ec2_params_fields {F : common.functions}
    cls worker_env self params :
  Activity.ec2_params cls worker_env self = Ok params →
  ∃ arn script rest,
    Activity.activity_arn cls = Some arn ∧
    Activity.script_name cls = Some script ∧
    get params "MinCount" = Some (PInt 1) ∧
    get params "MaxCount" = Some (PInt 1) ∧
    get params "TagSpecifications" = Some (PList [PDict [
      ("ResourceType", PStr "instance");
      ("Tags", PList [
        PDict [("Key", PStr "Name");
               ("Value", PStr ("ww-0-" +:+ Activity.__name__ cls))];
        PDict [("Key", PStr "ActivityArn"); ("Value", PStr arn)]
      ])
    ]]) ∧
    get params "UserData" = Some (PStr (
      "#!/bin/bash" +:+ nl +:+
      Activity.assign "ACTIVITY_ARN" arn +:+
      Activity.assign "SCRIPT_URL"
        (common.url (if Activity.fake_ec2 self
                     then "aws/hhvm1/worker/dummy-task.sh"
                     else "aws/userdata/" +:+ script)) +:+
      rest)).
Proof.
  unfold Activity.ec2_params.
  destruct (attr_truthy (Activity.ec2_iam_arn cls)); simpl; [| discriminate].
  destruct (attr_truthy (Activity.activity_arn cls)) eqn:Harn; simpl;
    [| discriminate].
  destruct (attr_truthy (Activity.script_name cls)) eqn:Hscript; simpl;
    [| discriminate].
  apply attr_truthy_true in Harn as (arn & Harn & _).
  apply attr_truthy_true in Hscript as (script & Hscript & _).
  rewrite Harn, Hscript.
  destruct (Activity.fake_ec2 self); simpl; intros [= <-];
    exists arn, script; eexists; repeat split; reflexivity.
Qed.

(** The keys an override of [ec2_params] passes to [params.update]. *)
Lemma classes_ec2_params_base {F : common.functions} c self params :
  classes.ec2_params c self = Ok params →
  ∃ base,
    Activity.ec2_params (classes.cls c) (classes.worker_env c self) self
      = Ok base ∧
    (∀ k, is_Some (get base k) → is_Some (get params k)) ∧
    (∀ k, k ∉ ["InstanceType"; "BlockDeviceMappings"; "Placement"] →
          get params k = get base k).
Proof.
  assert (Hupdate : ∀ (base : dict pyval) e,
    keys e ⊆ ["InstanceType"; "BlockDeviceMappings"; "Placement"] →
    (∀ k, is_Some (get base k) → is_Some (get (update base e) k)) ∧
    (∀ k, k ∉ ["InstanceType"; "BlockDeviceMappings"; "Placement"] →
          get (update base e) k = get base k)).
  { intros base e He. split.
    - intros k. apply get_update_is_Some.
    - intros k Hk. apply get_update_other. intros Hin. by apply Hk, He. }
  intros Hparams.
  destruct c; cbn [classes.ec2_params] in Hparams;
    try (exists params; by repeat split);
    unfold MakeSourceTarball.ec2_params, MakeBinaryPackage.ec2_params,
      PublishBinaryPackages.ec2_params in Hparams;
    change (classes.worker_env _ self) with (Activity.worker_env self);
    (destruct (Activity.ec2_params _ _ self) as [base |];
       cbn [bind] in Hparams; [| discriminate Hparams]);
    apply (f_equal (λ r, match r with Ok a => a | Raise _ => [] end))
      in Hparams; cbv beta iota in Hparams; subst params;
    exists base;
    (split; [reflexivity |]); apply Hupdate;
    intros k Hk;
    repeat (apply elem_of_cons in Hk as [-> | Hk];
            [apply (bool_decide_eq_true_1 _); vm_compute; reflexivity |]);
    by apply elem_of_nil in Hk.
Qed.

(** C8. When the [ec2_params] of a class of the module returns, the launch
    configuration asks for exactly one instance ([MinCount] and [MaxCount]
    are 1) and tags it with [ActivityArn], the [activity_arn] of the class.
    An override starts from what [Activity.ec2_params] returns, removes no
    key and changes the value of no key other than [InstanceType],
    [BlockDeviceMappings] and [Placement]. *)
Theorem ec2_params_one_tagged_instance {F : common.functions}
    (c : classes.name) (self : Activity.t) (params : dict pyval) :
  classes.ec2_params c self = Ok params →
  get params "MinCount" = Some (PInt 1) ∧
  get params "MaxCount" = Some (PInt 1) ∧
  (∃ arn,
     Activity.activity_arn (classes.cls c) = Some arn ∧
     get params "TagSpecifications" = Some (PList [PDict [
       ("ResourceType", PStr "instance");
       ("Tags", PList [
         PDict [("Key", PStr "Name");
                ("Value",
                 PStr ("ww-0-" +:+ Activity.__name__ (classes.cls c)))];
         PDict [("Key", PStr "ActivityArn"); ("Value", PStr arn)]
       ])
     ]])) ∧
  (∃ base,
     Activity.ec2_params (classes.cls c) (classes.worker_env c self) self
       = Ok base ∧
     (∀ k, is_Some (get base k) → is_Some (get params k)) ∧
     (∀ k, k ∉ ["InstanceType"; "BlockDeviceMappings"; "Placement"] →
           get params k = get base k)).
Proof.
  intros Hparams.
  destruct (classes_ec2_params_base _ _ _ Hparams)
    as (base & Hbase & Hkeep & Hsame).
  destruct (Activity_ec2_params_fields _ _ _ _ Hbase)
    as (arn & script & rest & Harn & _ & Hmin & Hmax & Htags & _).
  assert (Hother : ∀ k, k ∈ ["MinCount"; "MaxCount"; "TagSpecifications"] →
                        k ∉ ["InstanceType"; "BlockDeviceMappings"; "Placement"]).
  { intros k Hk.
    repeat (apply elem_of_cons in Hk as [-> | Hk];
            [apply (bool_decide_eq_true_1 _); vm_compute; reflexivity |]).
    by apply elem_of_nil in Hk. }
  rewrite !Hsame by (apply Hother; apply (bool_decide_eq_true_1 _);
                     vm_compute; reflexivity).
  repeat split; try assumption.
  - exists arn. by split.
  - exists base. by repeat split.
Qed.

(** C10. When [ec2_params] returns for an instance built from an event,
    [UserData] is the line '#!/bin/bash', the assignment of [ACTIVITY_ARN]
    and then the assignment of [SCRIPT_URL]: to the URL of
    'aws/hhvm1/worker/dummy-task.sh' when [common.fake_ec2] holds of the
    event, whatever [script_name] is, and to the URL of 'aws/userdata/'
    followed by [script_name] otherwise.  This holds of
    [Activity.ec2_params] in any class, and of the [ec2_params] of every
    class of the module. *)
Theorem ec2_params_script_url {F : common.functions} (event : pyval) :
  (∀ cls worker_env params,
     Activity.ec2_params cls worker_env (Activity.__init__ event)
       = Ok params →
     ∃ arn script rest,
       Activity.activity_arn cls = Some arn ∧
       Activity.script_name cls = Some script ∧
       get params "UserData" = Some (PStr (
         "#!/bin/bash" +:+ nl +:+
         Activity.assign "ACTIVITY_ARN" arn +:+
         Activity.assign "SCRIPT_URL"
           (common.url (if common.fake_ec2 event
                        then "aws/hhvm1/worker/dummy-task.sh"
                        else "aws/userdata/" +:+ script)) +:+
         rest))) ∧
  (∀ c params,
     classes.ec2_params c (Activity.__init__ event) = Ok params →
     ∃ arn script rest,
       Activity.activity_arn (classes.cls c) = Some arn ∧
       Activity.script_name (classes.cls c) = Some script ∧
       get params "UserData" = Some (PStr (
         "#!/bin/bash" +:+ nl +:+
         Activity.assign "ACTIVITY_ARN" arn +:+
         Activity.assign "SCRIPT_URL"
           (common.url (if common.fake_ec2 event
                        then "aws/hhvm1/worker/dummy-task.sh"
                        else "aws/userdata/" +:+ script)) +:+
         rest))).
Proof.
  split.
  - intros cls worker_env params Hparams.
    destruct (Activity_ec2_params_fields _ _ _ _ Hparams)
      as (arn & script & rest & Harn & Hscript & _ & _ & _ & Hdata).
    by exists arn, script, rest.
  - intros c params Hparams.
    destruct (classes_ec2_params_base _ _ _ Hparams)
      as (base & Hbase & _ & Hsame).
    destruct (Activity_ec2_params_fields _ _ _ _ Hbase)
      as (arn & script & rest & Harn & Hscript & _ & _ & _ & Hdata).
    exists arn, script, rest. rewrite Hsame; [by repeat split |].
    apply (bool_decide_eq_true_1 _). vm_compute. reflexivity.
Qed.

(** *** The should_run predicates *)

(** C4. [MakeBinaryPackage.should_run] returns [True] exactly when the event
    has a version and a platform whose build status is 'not_built', and
    [False] exactly when it has them and the status is anything else. *)
Theorem MakeBinaryPackage_should_run_iff_not_built {F : common.functions}
    (self : Activity.t) :
  (MakeBinaryPackage.should_run self = Ok true ↔
   ∃ version platform,
     Activity.version self = Ok version ∧
     Activity.platform self = Ok platform ∧
     common.build_status version platform = "not_built") ∧
  (MakeBinaryPackage.should_run self = Ok false ↔
   ∃ version platform,
     Activity.version self = Ok version ∧
     Activity.platform self = Ok platform ∧
     common.build_status version platform ≠ "not_built").
Proof.
  unfold MakeBinaryPackage.should_run.
  destruct (Activity.version self) as [version |]; simpl.
  - destruct (Activity.platform self) as [platform |]; simpl.
    + split; (split;
        [ intros [= Hb]; exists version, platform; repeat split;
          by first [apply bool_decide_eq_true in Hb
                   | apply bool_decide_eq_false in Hb]
        | intros (v & p & [= <-] & [= <-] & Hst); f_equal;
          by first [apply bool_decide_eq_true | apply bool_decide_eq_false] ]).
    + split; (split; [discriminate | by intros (v & p & _ & Hp & _)]).
  - split; (split; [discriminate | by intros (v & p & Hv & _)]).
Qed.

Lemma any_gen_total {A} (f : A → result bool) (p : A → bool) l :
  (∀ x, f x = Ok (p x)) → any_gen f l = Ok (any p l).
Proof.
  intros Hf. induction l as [| x l IH]; simpl; [done |].
  rewrite Hf. simpl. by destruct (p x).
Qed.

(** C5. When the event has a version whose environment names a bucket and a
    path, [MakeSourceTarball.should_run] returns [True] exactly when no
    object of the listing of the bucket under the path has the path as its
    key, and [False] exactly when one has. *)
Theorem MakeSourceTarball_should_run_iff_no_marker
    {F : common.functions} {AWS : boto3.account}
    (self : Activity.t) (version : pyval) (bucket path : string) :
  Activity.version self = Ok version →
  common.env_for_version version !! "S3_BUCKET" = Some bucket →
  common.env_for_version version !! "S3_PATH" = Some path →
  let listing :=
    default [] (boto3.Contents (boto3.s3_list_objects bucket path)) in
  (MakeSourceTarball.should_run self = Ok true ↔
   ∀ obj, obj ∈ listing → boto3.Key obj ≠ path) ∧
  (MakeSourceTarball.should_run self = Ok false ↔
   ∃ obj, obj ∈ listing ∧ boto3.Key obj = path).
Proof.
  intros Hversion Hbucket Hpath listing.
  unfold MakeSourceTarball.should_run, subscript.
  rewrite Hversion. simpl. rewrite Hbucket, Hpath. simpl.
  rewrite (any_gen_total _ (λ obj, bool_decide (boto3.Key obj = path)))
    by done.
  simpl. fold listing.
  destruct (any _ listing) eqn:Hany; simpl.
  - apply any_eq_true in Hany as (obj & Hobj & Hkey).
    apply bool_decide_eq_true in Hkey.
    split; split.
    + discriminate.
    + intros Hnone. by destruct (Hnone obj Hobj).
    + intros _. by exists obj.
    + done.
  - assert (Hnone : ∀ obj, obj ∈ listing → boto3.Key obj ≠ path).
    { intros obj Hobj Hkey.
      assert (any (λ obj, bool_decide (boto3.Key obj = path)) listing = true)
        as Htrue; [| congruence].
      apply any_eq_true. exists obj. split; [done |].
      by apply bool_decide_eq_true. }
    split; split.
    + done.
    + done.
    + discriminate.
    + intros (obj & Hobj & Hkey). by destruct (Hnone obj Hobj).
Qed.

Lemma eqb_trans (a b c : pyval) :
  eqb a b = true → eqb b c = true → eqb a c = true.
Proof.
  destruct a as [| x | x | s | |], b as [| y | y | t | |],
    c as [| z | z | u | |]; simpl; try discriminate; try done;
    rewrite ?bool_decide_eq_true, ?Z.eqb_eq; intros Hab Hbc; subst;
    try done;
    repeat match goal with b : bool |- _ => destruct b end;
    simpl in *; congruence.
Qed.

Lemma set_add_contains (acc acc' : pyset) (n v : pyval) :
  set_add acc n = Ok acc' →
  any (eqb v) acc' = true ↔ any (eqb v) acc = true ∨ eqb v n = true.
Proof.
  unfold set_add, set_contains.
  destruct (hashable n); simpl; [| discriminate].
  destruct (any (eqb n) acc) eqn:Hmem; intros [= <-].
  - split; [by left |]. intros [Hv | Hv]; [done |].
    apply any_eq_true in Hmem as (m & Hm & Hnm).
    apply any_eq_true. exists m. split; [done |]. by eapply eqb_trans.
  - unfold any. rewrite existsb_app. simpl.
    rewrite orb_true_iff, orb_false_r. done.
Qed.

(** The members of a set comprehension are the values of [f] on the list. *)
Lemma set_comp_contains {A} (f : A → result pyval) l acc s v :
  set_comp f l acc = Ok s →
  any (eqb v) s = true ↔
  any (eqb v) acc = true ∨ ∃ x n, x ∈ l ∧ f x = Ok n ∧ eqb v n = true.
Proof.
  revert acc. induction l as [| x l IH]; simpl; intros acc Hs.
  - injection Hs as ->. split; [by left |].
    intros [Hv | (x & n & Hx & _)]; [done | by apply elem_of_nil in Hx].
  - destruct (f x) as [n |] eqn:Hfx; simpl in Hs; [| discriminate].
    destruct (set_add acc n) as [acc' |] eqn:Hadd; simpl in Hs;
      [| discriminate].
    rewrite (IH _ Hs), (set_add_contains _ _ _ _ Hadd). split.
    + intros [[Hv | Hv] | (y & m & Hy & Hfy & Hv)].
      * by left.
      * right. exists x, n. repeat split; [by left | done..].
      * right. exists y, m. repeat split; [by right | done..].
    + intros [Hv | (y & m & Hy & Hfy & Hv)]; [by left; left |].
      apply elem_of_cons in Hy as [-> | Hy].
      * left. right. congruence.
      * right. by exists y, m.
Qed.

(** The tags of a repository: the version is in the set exactly when an
    entry of the registry's document has a name equal to it. *)
Lemma docker_tags_contains {W : request.web} self repo tags v :
  PublishDockerImages.docker_tags self repo = Ok tags →
  any (eqb v) tags = true ↔
  ∃ entries entry name,
    iter (request.urlopen_json
            ("https://index.docker.io/v1/repositories/hhvm/" +:+ repo
             +:+ "/tags")) = Ok entries ∧
    entry ∈ entries ∧ getitem entry "name" = Ok name ∧ eqb v name = true.
Proof.
  unfold PublishDockerImages.docker_tags.
  destruct (iter _) as [entries |]; simpl; [| discriminate].
  intros Htags. rewrite (set_comp_contains _ _ _ _ v Htags). simpl. split.
  - intros [Hv | (entry & name & He & Hn & Hv)]; [discriminate |].
    by exists entries, entry, name.
  - intros (? & entry & name & [= <-] & He & Hn & Hv).
    right. by exists entry, name.
Qed.

(** C6. When the event has a version and both tag documents yield a set in
    which the version can be looked up, [PublishDockerImages.should_run]
    returns; it returns [True] exactly when the version is absent from the
    tags of 'hhvm' or from the tags of 'hhvm-proxygen', and [False] exactly
    when it is present in both. *)
Theorem PublishDockerImages_should_run_iff_untagged {W : request.web}
    (self : Activity.t) (version : pyval) (hhvm proxygen : pyset)
    (in_hhvm in_proxygen : bool) :
  Activity.version self = Ok version →
  PublishDockerImages.docker_tags self "hhvm" = Ok hhvm →
  PublishDockerImages.docker_tags self "hhvm-proxygen" = Ok proxygen →
  set_contains version hhvm = Ok in_hhvm →
  set_contains version proxygen = Ok in_proxygen →
  returns (PublishDockerImages.should_run self) ∧
  (PublishDockerImages.should_run self = Ok true ↔
   in_hhvm = false ∨ in_proxygen = false) ∧
  (PublishDockerImages.should_run self = Ok false ↔
   in_hhvm = true ∧ in_proxygen = true).
Proof.
  intros Hversion Hhhvm Hproxygen Hin Hin'.
  unfold PublishDockerImages.should_run.
  rewrite Hversion. simpl. rewrite Hhhvm. simpl. rewrite Hin. simpl.
  destruct in_hhvm; simpl.
  - rewrite Hproxygen. simpl. rewrite Hin'. simpl.
    destruct in_proxygen; simpl; repeat split;
      try discriminate; try tauto; try (intros [? | ?]; discriminate);
      try (intros [? ?]; discriminate).
  - repeat split; try discriminate; try tauto;
      intros [? ?]; discriminate.
Qed.

(** C9. When the version of the event is nightly,
    [PublishSourceTarball.should_run] returns [False], whatever the
    build-status service would answer: the answer is not part of the
    result, and a status 'not_built' raises nothing. *)
Theorem PublishSourceTarball_should_run_nightly {F : common.functions}
    (self : Activity.t) (version : pyval) :
  Activity.version self = Ok version →
  common.is_nightly version = true →
  PublishSourceTarball.should_run self = Ok false ∧
  ∀ statuses,
    PublishSourceTarball.should_run
      (F := common.with_build_statuses F statuses) self = Ok false.
Proof.
  intros Hversion Hnightly.
  unfold PublishSourceTarball.should_run.
  rewrite Hversion. simpl. rewrite Hnightly. simpl. done.
Qed.

(** *** needs_ec2_worker *)

Lemma filter_matches_tag key vals i :
  boto3.filter_matches
    {| boto3.Name := "tag:" +:+ key; boto3.Values := vals |} i = true ↔
  ∃ v, boto3.tags i !! key = Some v ∧ v ∈ vals.
Proof.
  unfold boto3.filter_matches. simpl.
  change (EmptyString +:+ key) with key.
  destruct (boto3.tags i !! key) as [v |].
  - rewrite bool_decide_eq_true. split.
    + intros Hv. by exists v.
    + by intros (? & [= <-] & Hv).
  - split; [discriminate | by intros (? & ? & _)].
Qed.

Lemma filter_matches_state vals i :
  boto3.filter_matches
    {| boto3.Name := "instance-state-name"; boto3.Values := vals |} i = true ↔
  boto3.state_name i ∈ vals.
Proof.
  unfold boto3.filter_matches. simpl. apply bool_decide_eq_true.
Qed.

(** The instances that hold the activity: pending or running, and tagged
    with its ARN. *)
Lemma has_ec2_workers_iff {AWS : boto3.account} cls self arn :
  Activity.activity_arn cls = Some arn →
  ∃ busy,
    Activity.has_ec2_workers cls self = Ok busy ∧
    (busy = true ↔
     ∃ i, i ∈ boto3.ec2_instances ∧
          boto3.state_name i ∈ ["pending"; "running"] ∧
          boto3.tags i !! "ActivityArn" = Some arn).
Proof.
  intros Harn. unfold Activity.has_ec2_workers. rewrite Harn.
  unfold boto3.instances_filter.
  match goal with |- context [filter ?P ?l] => set (found := filter P l) end.
  assert (Hfound : ∀ i, i ∈ found ↔
    i ∈ boto3.ec2_instances ∧
    boto3.state_name i ∈ ["pending"; "running"] ∧
    boto3.tags i !! "ActivityArn" = Some arn).
  { intros i. unfold found. rewrite list_elem_of_filter.
    cbn [forallb]. rewrite !andb_true_iff.
    change "tag:ActivityArn" with ("tag:" +:+ "ActivityArn").
    rewrite filter_matches_tag, filter_matches_state. split.
    - intros [((v & Hv & Hin) & Hstate & _) Hi]. repeat split; try done.
      apply list_elem_of_singleton in Hin. by subst.
    - intros (Hi & Hstate & Htag). repeat split; try done.
      exists arn. split; [done | by apply list_elem_of_singleton]. }
  destruct found as [| i found'].
  - exists false. split; [done |]. split; [discriminate |].
    intros (i & Hi). apply Hfound in Hi. by apply elem_of_nil in Hi.
  - exists true. split; [done |]. split; [| done].
    intros _. exists i. apply Hfound. by left.
Qed.

(** The filter values of [PublishBinaryPackages.has_ec2_workers] have no
    wildcard. *)
Lemma has_ec2_workers_values_literal :
  ∃ arn, Activity.activity_arn PublishBinaryPackages.cls = Some arn ∧
         forallb boto3.literal [arn; "pending"; "running"] = true.
Proof. eexists. split; [reflexivity |]. vm_compute. reflexivity. Qed.

(** C7. [PublishBinaryPackages.needs_ec2_worker] returns, and returns [True]
    exactly when no instance in state 'pending' or 'running' carries the tag
    [ActivityArn] with the [activity_arn] of the class.  The
    [needs_ec2_worker] of every other class returns [True]. *)
Theorem needs_ec2_worker_single_instance {AWS : boto3.account}
    (self : Activity.t) :
  returns (PublishBinaryPackages.needs_ec2_worker self) ∧
  (PublishBinaryPackages.needs_ec2_worker self = Ok true ↔
   ¬ ∃ i, i ∈ boto3.ec2_instances ∧
          boto3.state_name i ∈ ["pending"; "running"] ∧
          boto3.tags i !! "ActivityArn"
            = Activity.activity_arn PublishBinaryPackages.cls) ∧
  (∀ c, c ≠ classes.PublishBinaryPackages →
        classes.needs_ec2_worker c self = Ok true).
Proof.
  destruct (has_ec2_workers_iff PublishBinaryPackages.cls self _ eq_refl)
    as (busy & Hbusy & Hiff).
  unfold PublishBinaryPackages.needs_ec2_worker. rewrite Hbusy. simpl.
  split; [done |]. split.
  - rewrite <- Hiff. by destruct busy.
  - intros c Hc. by destruct c.
Qed.

(** ** Further properties of the module *)

(** *** Dicts with distinct keys *)

Lemma setitem_fresh {V} (d : dict V) k v :
  k ∉ keys d → setitem d k v = (d ++ [(k, v)])%list.
Proof.
  unfold keys. induction d as [| [k0 v0] d IH]; simpl; intros Hk; [done |].
  apply not_elem_of_cons in Hk as [Hne Hk].
  destruct (decide (k0 = k)); [congruence |]. by rewrite IH.
Qed.

Lemma update_distinct {V} (acc l : dict V) :
  NoDup (keys (acc ++ l)%list) → update acc l = (acc ++ l)%list.
Proof.
  unfold update. revert acc.
  induction l as [| [k v] l IH]; simpl; intros acc Hnd.
  - by rewrite app_nil_r.
  - assert (Hk : k ∉ keys acc).
    { unfold keys in *. rewrite fmap_app in Hnd.
      apply NoDup_app in Hnd as (_ & Hdisj & _).
      intros Hin. apply (Hdisj k Hin). simpl. by left. }
    rewrite (setitem_fresh _ _ _ Hk). rewrite IH.
    + by rewrite <- app_assoc.
    + by rewrite <- app_assoc.
Qed.

(** On a dict, a dict comprehension keeps the items that pass, in order. *)
Lemma dict_comp_distinct {V} (keep : string → V → bool) (d : dict V) :
  NoDup (keys d) →
  dict_comp keep d = filter (λ kv, keep kv.1 kv.2 = true) d.
Proof.
  intros Hnd. unfold dict_comp. apply (update_distinct []). simpl.
  unfold keys in *. apply (sublist_NoDup _ _ Hnd).
  apply fmap_sublist, sublist_filter.
Qed.

Lemma elem_of_setitem {V} (d : dict V) k v kv :
  kv ∈ setitem d k v → kv ∈ d ∨ kv = (k, v).
Proof.
  induction d as [| [k0 v0] d IH]; simpl.
  - intros Hin. apply list_elem_of_singleton in Hin. by right.
  - destruct (decide (k0 = k)); intros Hin;
      apply elem_of_cons in Hin as [-> | Hin].
    + by right.
    + left. by right.
    + left. by left.
    + destruct (IH Hin) as [? | ?]; [left; by right | by right].
Qed.

Lemma elem_of_update {V} (acc l : dict V) kv :
  kv ∈ update acc l → kv ∈ acc ∨ kv ∈ l.
Proof.
  unfold update. revert acc.
  induction l as [| [k v] l IH]; simpl; intros acc Hin; [by left |].
  destruct (IH _ Hin) as [Hacc | Hl]; [| right; by right].
  destruct (elem_of_setitem _ _ _ _ Hacc) as [? | ->];
    [by left | right; by left].
Qed.

Lemma get_distinct {V} (d : dict V) k v :
  NoDup (keys d) → (k, v) ∈ d ↔ get d k = Some v.
Proof.
  unfold keys. induction d as [| [k0 v0] d IH]; simpl; intros Hnd.
  - split; [intros Hin; by apply elem_of_nil in Hin | discriminate].
  - apply NoDup_cons in Hnd as [Hk0 Hnd].
    destruct (decide (k0 = k)) as [-> | Hne].
    + split.
      * intros Hin. apply elem_of_cons in Hin as [[= ->] | Hin]; [done |].
        destruct Hk0. apply list_elem_of_fmap. by exists (k, v).
      * intros [= ->]. by left.
    + rewrite <- (IH Hnd). split.
      * intros Hin. apply elem_of_cons in Hin as [[= -> ->] | Hin]; done.
      * intros Hin. by right.
Qed.

(** *** any_unpublished and the predicates that call it *)

Lemma any_unpublished_result (statuses : dict string) :
  (raises (any_unpublished statuses) ↔ "not_built" ∈ values statuses) ∧
  (any_unpublished statuses = Ok true ↔
   ("not_built" ∉ values statuses) ∧
   ("built_not_published" ∈ values statuses)) ∧
  (any_unpublished statuses = Ok false ↔
   ("not_built" ∉ values statuses) ∧
   ("built_not_published" ∉ values statuses)).
Proof.
  unfold any_unpublished.
  destruct (any (λ s, bool_decide (s = "not_built")) (values statuses))
    eqn:Hnb; simpl.
  - apply any_is_member in Hnb. split; [tauto |].
    split; (split; [discriminate | intros [Hn _]; contradiction]).
  - assert (Hno : "not_built" ∉ values statuses).
    { intros Hin. apply any_is_member in Hin. congruence. }
    split; [tauto |].
    destruct (any (λ s, bool_decide (s = "built_not_published"))
                (values statuses)) eqn:Hbnp.
    + apply any_is_member in Hbnp. split; [tauto |].
      split; [discriminate | intros [_ Hn]; contradiction].
    + assert ("built_not_published" ∉ values statuses).
      { intros Hin. apply any_is_member in Hin. congruence. }
      split; [| tauto].
      split; [discriminate | intros [_ Hn]; contradiction].
Qed.

Lemma elem_of_values_filter {V} (P : string * V → Prop)
    `{!∀ kv, Decision (P kv)} (d : dict V) v :
  v ∈ values (filter P d) ↔ ∃ k, (k, v) ∈ d ∧ P (k, v).
Proof.
  unfold values. rewrite list_elem_of_fmap. split.
  - intros ([k v'] & -> & Hin). apply list_elem_of_filter in Hin as [HP Hin].
    by exists k.
  - intros (k & Hin & HP). exists (k, v). split; [done |].
    by apply list_elem_of_filter.
Qed.

(** The outcome of [any_unpublished] on a dict comprehension over a dict. *)
Lemma any_unpublished_restricted (keep : string → string → bool)
    (d : dict string) :
  NoDup (keys d) →
  let has status := ∃ p, (p, status) ∈ d ∧ keep p status = true in
  (raises (any_unpublished (dict_comp keep d)) ↔ has "not_built") ∧
  (any_unpublished (dict_comp keep d) = Ok true ↔
   ¬ has "not_built" ∧ has "built_not_published") ∧
  (any_unpublished (dict_comp keep d) = Ok false ↔
   ¬ has "not_built" ∧ ¬ has "built_not_published").
Proof.
  intros Hnd has. rewrite (dict_comp_distinct _ _ Hnd).
  pose proof (any_unpublished_result
                (filter (λ kv, keep kv.1 kv.2 = true) d)) as Hres.
  rewrite !elem_of_values_filter in Hres. exact Hres.
Qed.

(** X1. When the build statuses of the event's version form a dict,
    [PublishBinaryPackages.should_run] looks at the Linux platforms only: it
    raises exactly when one of them is 'not_built', returns [True] exactly
    when none is and one is 'built_not_published', and [False] exactly when
    none is either.  The status of any other platform changes nothing. *)
Theorem PublishBinaryPackages_should_run_linux {F : common.functions}
    (self : Activity.t) (version : pyval) :
  Activity.version self = Ok version →
  NoDup (keys (common.build_statuses version)) →
  let linux status :=
    ∃ p, (p, status) ∈ common.build_statuses version ∧
         common.is_linux p = true in
  (raises (PublishBinaryPackages.should_run self) ↔ linux "not_built") ∧
  (PublishBinaryPackages.should_run self = Ok true ↔
   ¬ linux "not_built" ∧ linux "built_not_published") ∧
  (PublishBinaryPackages.should_run self = Ok false ↔
   ¬ linux "not_built" ∧ ¬ linux "built_not_published").
Proof.
  intros Hversion Hnd linux. unfold PublishBinaryPackages.should_run.
  rewrite Hversion. simpl.
  exact (any_unpublished_restricted
           (λ platform _, common.is_linux platform) _ Hnd).
Qed.

(** X2. For a version that is not nightly whose build statuses form a dict,
    [PublishSourceTarball.should_run] looks at 'source' and 'source_gpg'
    only: it raises exactly when one of the two is 'not_built', returns
    [True] exactly when none is and one is 'built_not_published', and
    [False] exactly when none is either. *)
Theorem PublishSourceTarball_should_run_sources {F : common.functions}
    (self : Activity.t) (version : pyval) :
  Activity.version self = Ok version →
  common.is_nightly version = false →
  NoDup (keys (common.build_statuses version)) →
  let source status :=
    ∃ p, (p, status) ∈ common.build_statuses version ∧
         (p = "source" ∨ p = "source_gpg") in
  (raises (PublishSourceTarball.should_run self) ↔ source "not_built") ∧
  (PublishSourceTarball.should_run self = Ok true ↔
   ¬ source "not_built" ∧ source "built_not_published") ∧
  (PublishSourceTarball.should_run self = Ok false ↔
   ¬ source "not_built" ∧ ¬ source "built_not_published").
Proof.
  intros Hversion Hnightly Hnd source.
  unfold PublishSourceTarball.should_run.
  rewrite Hversion. simpl. rewrite Hnightly. simpl.
  pose proof (any_unpublished_restricted
    (λ platform _,
       bool_decide (platform ∈ ({["source"; "source_gpg"]} : gset string)))
    _ Hnd) as Hres.
  assert (Hsrc : ∀ status,
    (∃ p, (p, status) ∈ common.build_statuses version ∧
          bool_decide (p ∈ ({["source"; "source_gpg"]} : gset string)) = true)
    ↔ source status).
  { intros status. unfold source.
    split; intros (p & Hin & Hp); exists p; (split; [done |]).
    - apply bool_decide_eq_true in Hp. set_solver.
    - apply bool_decide_eq_true. set_solver. }
  simpl in Hres. rewrite !Hsrc in Hres. exact Hres.
Qed.

(** X3. Restricting the mapping never brings an error: when
    [any_unpublished] raises on a dict comprehension over some statuses, it
    raises on the statuses themselves, and when it returns [True] on the
    comprehension it does not return [False] on the whole. *)
Theorem any_unpublished_restriction (keep : string → string → bool)
    (statuses : dict string) :
  (raises (any_unpublished (dict_comp keep statuses)) →
   raises (any_unpublished statuses)) ∧
  (any_unpublished (dict_comp keep statuses) = Ok true →
   any_unpublished statuses ≠ Ok false).
Proof.
  assert (Hsub : ∀ v, v ∈ values (dict_comp keep statuses) →
                      v ∈ values statuses).
  { intros v Hv. unfold values in *.
    apply list_elem_of_fmap in Hv as ([k v'] & -> & Hin).
    unfold dict_comp in Hin. apply elem_of_update in Hin as [Hin | Hin].
    - by apply elem_of_nil in Hin.
    - apply list_elem_of_filter in Hin as [_ Hin].
      apply list_elem_of_fmap. by exists (k, v'). }
  pose proof (any_unpublished_result statuses) as (Hr & Ht & Hf).
  pose proof (any_unpublished_result (dict_comp keep statuses))
    as (Hr' & Ht' & Hf').
  split.
  - rewrite Hr, Hr'. apply Hsub.
  - rewrite Ht', Hf. intros [_ Hin] [_ Hout]. by apply Hout, Hsub.
Qed.

Lemma filter_keys_get (d l : dict string) (status : string) :
  (∀ kv, kv ∈ l → get d kv.1 = Some kv.2) →
  filter (λ p, get d p = Some status) (keys l)
  = keys (filter (λ kv, kv.2 = status) l).
Proof.
  unfold keys. induction l as [| [k v] l IH]; intros Hget; [done |].
  rewrite fmap_cons.
  rewrite (filter_cons (λ p, get d p = Some status)),
    (filter_cons (λ kv : string * string, kv.2 = status)). simpl.
  rewrite IH by (intros kv Hkv; apply Hget; by right).
  pose proof (Hget (k, v) ltac:(by left)) as Hk. simpl in Hk. rewrite Hk.
  repeat case_decide; simplify_eq/=; done.
Qed.

(** X4. On a dict of statuses with an unbuilt package, the exception of
    [any_unpublished] names the packages whose status is 'not_built', all of
    them and no other, in the order of the dict. *)
Theorem any_unpublished_message (statuses : dict string) :
  NoDup (keys statuses) →
  "not_built" ∈ values statuses →
  any_unpublished statuses
  = Raise (Exception
      ("cannot publish because there are unbuilt packages: " +:+
       join ", " (keys (filter (λ kv, kv.2 = "not_built") statuses)))).
Proof.
  intros Hnd Hnb. unfold any_unpublished.
  apply any_is_member in Hnb. rewrite Hnb.
  rewrite (filter_keys_get statuses statuses); [done |].
  intros [k v] Hkv. by apply get_distinct.
Qed.

(** *** BuildAndPublishMacOS *)

Lemma str_set_comp_elem cond l s :
  str_set_comp cond l = Ok s →
  ∀ x, x ∈ s ↔ x ∈ l ∧ cond x = Ok true.
Proof.
  revert s. induction l as [| y l IH]; simpl; intros s Hs x.
  - injection Hs as Hs. subst s. split; [set_solver |].
    intros [Hx _]. by apply elem_of_nil in Hx.
  - destruct (cond y) as [b |] eqn:Hy; simpl in Hs; [| discriminate].
    destruct (str_set_comp cond l) as [s' |]; simpl in Hs; [| discriminate].
    injection Hs as Hs. subst s. specialize (IH s' eq_refl x).
    rewrite elem_of_cons. destruct b.
    + rewrite elem_of_union, elem_of_singleton, IH. split.
      * intros [-> | [Hx Hc]]; [by split; [left |] | by split; [right |]].
      * intros [[-> | Hx] Hc]; [by left | by right].
    + rewrite IH. split.
      * intros [Hx Hc]. by split; [right |].
      * intros [[-> | Hx] Hc]; [congruence | done].
Qed.

Lemma str_set_comp_raises cond l :
  raises (str_set_comp cond l) ↔ ∃ x, x ∈ l ∧ raises (cond x).
Proof.
  induction l as [| y l IH]; simpl.
  - split; [intros [] | intros (x & Hx & _); by apply elem_of_nil in Hx].
  - destruct (cond y) as [b |] eqn:Hy; simpl.
    + destruct (str_set_comp cond l) as [s' |]; simpl in *.
      * split; [intros [] |]. intros (x & Hx & Hr).
        apply elem_of_cons in Hx as [-> | Hx].
        -- by rewrite Hy in Hr.
        -- apply IH. by exists x.
      * split; [| done]. intros _.
        destruct (proj1 IH I) as (x & Hx & Hr). exists x. by split; [right |].
    + split; [| done]. intros _. exists y. rewrite Hy. by split; [left |].
Qed.

(** Whether [contains] raises depends on the container only. *)
Lemma contains_raises x c :
  raises (contains x c) ↔ c = PNone ∨ (∃ b, c = PBool b) ∨ (∃ z, c = PInt z).
Proof.
  destruct c; simpl; split; try done; eauto;
    intros [? | [[? ?] | [? ?]]]; discriminate.
Qed.

(** What [platforms_to_build] does once the event's platforms are read. *)
Lemma platforms_to_build_unfold
    {F : common.functions} {T : common.Config.table} self asked :
  BuildAndPublishMacOS.input_platforms self = Ok asked →
  BuildAndPublishMacOS.platforms_to_build self =
  do requested <-
    (if truthy asked then
       str_set_comp (λ p, contains p asked)
         (elements (dom common.Config.macos_versions))
     else Ok (dom common.Config.macos_versions));
  if bool_decide (requested = ∅) then Ok ∅
  else
    do version <- Activity.version self;
    Ok (list_to_set
          (keys (filter
                   (λ item, item.2 ≠ "succeeded" ∧ item.1 ∈ requested)
                   (common.build_statuses version)))).
Proof.
  intros Hasked. unfold BuildAndPublishMacOS.platforms_to_build.
  rewrite Hasked. reflexivity.
Qed.

Lemma requested_elem {T : common.Config.table} asked requested :
  (if truthy asked then
     str_set_comp (λ p, contains p asked)
       (elements (dom common.Config.macos_versions))
   else Ok (dom common.Config.macos_versions)) = Ok requested →
  ∀ p, p ∈ requested ↔ requested_by asked p.
Proof.
  unfold requested_by. intros Hreq p. destruct (truthy asked).
  - rewrite (str_set_comp_elem _ _ _ Hreq), elem_of_elements, elem_of_dom.
    split; [intros [? ?]; by split | intros [? Hc]; split; [done | by apply Hc]].
  - injection Hreq as <-. rewrite elem_of_dom.
    split; [intros ?; by split | by intros [? _]].
Qed.

Lemma to_build_elem {F : common.functions} version (requested : gset string) p :
  p ∈ (list_to_set
         (keys (filter (λ item, item.2 ≠ "succeeded" ∧ item.1 ∈ requested)
                  (common.build_statuses version))) : gset string) ↔
  p ∈ requested ∧ to_build version p.
Proof.
  unfold to_build, keys.
  rewrite elem_of_list_to_set, list_elem_of_fmap. split.
  - intros ([k status] & -> & Hin).
    apply list_elem_of_filter in Hin as [[Hst Hk] Hin]. simpl in *.
    split; [done |]. by exists status.
  - intros [Hp (status & Hin & Hst)]. exists (p, status). split; [done |].
    by apply list_elem_of_filter.
Qed.

Lemma platforms_to_build_elem
    {F : common.functions} {T : common.Config.table} self platforms :
  BuildAndPublishMacOS.platforms_to_build self = Ok platforms →
  ∃ asked,
    BuildAndPublishMacOS.input_platforms self = Ok asked ∧
    ∀ p, p ∈ platforms ↔
         requested_by asked p ∧
         ∃ version, Activity.version self = Ok version ∧ to_build version p.
Proof.
  destruct (BuildAndPublishMacOS.input_platforms self) as [asked |] eqn:Hasked.
  2: { unfold BuildAndPublishMacOS.platforms_to_build. rewrite Hasked.
       discriminate. }
  rewrite (platforms_to_build_unfold _ _ Hasked). intros Hp.
  exists asked. split; [done |]. intros p.
  destruct (if truthy asked then _ else _) as [requested |] eqn:Hreq;
    simpl in Hp; [| discriminate].
  rewrite <- (requested_elem _ _ Hreq).
  case_bool_decide as Hempty.
  - injection Hp as <-. subst requested.
    split; [intros Hin | intros [Hin _]]; by apply not_elem_of_empty in Hin.
  - destruct (Activity.version self) as [version |]; simpl in Hp;
      [| discriminate].
    injection Hp as <-. rewrite to_build_elem. split.
    + intros [? ?]. split; [done |]. by exists version.
    + intros [? (v & [= <-] & ?)]. by split.
Qed.

(** X5. When [platforms_to_build] returns, its members are the platforms
    that the table [Config.macos_versions] has, that the event asks for
    (all of them when [buildInput.platforms] is empty or null), and whose
    build status for the event's version is not 'succeeded'. *)
Theorem platforms_to_build_members
    {F : common.functions} {T : common.Config.table}
    (self : Activity.t) (platforms : gset string) :
  BuildAndPublishMacOS.platforms_to_build self = Ok platforms →
  ∃ asked,
    BuildAndPublishMacOS.input_platforms self = Ok asked ∧
    ∀ p, p ∈ platforms ↔
         is_Some (common.Config.macos_versions !! p) ∧
         (truthy asked = true → contains p asked = Ok true) ∧
         ∃ version status,
           Activity.version self = Ok version ∧
           (p, status) ∈ common.build_statuses version ∧
           status ≠ "succeeded".
Proof.
  intros Hp.
  destruct (platforms_to_build_elem _ _ Hp) as (asked & Hasked & Helem).
  exists asked. split; [done |]. intros p. rewrite Helem.
  unfold requested_by, to_build. split.
  - intros [[Htable Hasks] (version & Hv & status & Hin & Hst)].
    repeat split; try done. by exists version, status.
  - intros (Htable & Hasks & version & status & Hv & Hin & Hst).
    repeat split; try done. exists version. split; [done |]. by exists status.
Qed.

(** X6. [BuildAndPublishMacOS.should_run] returns [True] exactly when some
    platform of the table that the event asks for has, for the event's
    version, a build status other than 'succeeded'; nothing else has to be
    assumed of the event. *)
Theorem BuildAndPublishMacOS_should_run_iff
    {F : common.functions} {T : common.Config.table} (self : Activity.t) :
  BuildAndPublishMacOS.should_run self = Ok true ↔
  ∃ asked version p,
    BuildAndPublishMacOS.input_platforms self = Ok asked ∧
    Activity.version self = Ok version ∧
    requested_by asked p ∧ to_build version p.
Proof.
  unfold BuildAndPublishMacOS.should_run. split.
  - destruct (BuildAndPublishMacOS.platforms_to_build self)
      as [platforms |] eqn:Hp; simpl; [| discriminate].
    intros [= Hne]. apply negb_true_iff, bool_decide_eq_false in Hne.
    destruct (platforms_to_build_elem _ _ Hp) as (asked & Hasked & Helem).
    apply set_choose_L in Hne as [p Hin].
    destruct (proj1 (Helem p) Hin) as (Hreq & version & Hv & Hb).
    by exists asked, version, p.
  - intros (asked & version & p & Hasked & Hv & Hreq & Hb).
    rewrite (platforms_to_build_unfold _ _ Hasked).
    assert (Hex : ∃ requested,
      (if truthy asked then
         str_set_comp (λ p, contains p asked)
           (elements (dom common.Config.macos_versions))
       else Ok (dom common.Config.macos_versions)) = Ok requested).
    { destruct Hreq as [_ Hasks]. destruct (truthy asked); [| by eexists].
      destruct (str_set_comp _ _) as [requested |] eqn:Hcomp; [by eexists |].
      exfalso.
      assert (Hr : raises (str_set_comp (λ p, contains p asked)
                (elements (dom common.Config.macos_versions))))
        by by rewrite Hcomp.
      apply str_set_comp_raises in Hr as (x & _ & Hx).
      apply contains_raises in Hx. specialize (Hasks eq_refl).
      destruct Hx as [-> | [[b ->] | [z ->]]]; discriminate. }
    destruct Hex as [requested Hrequested]. rewrite Hrequested. simpl.
    pose proof (requested_elem _ _ Hrequested) as Helem.
    assert (Hp : p ∈ requested) by by apply Helem.
    assert (Hne : requested ≠ ∅).
    { intros ->. by apply not_elem_of_empty in Hp. }
    rewrite (bool_decide_eq_false_2 _ Hne).
    rewrite Hv. simpl. f_equal. apply negb_true_iff, bool_decide_eq_false.
    assert (Hin : p ∈ (list_to_set (keys (filter
              (λ item, item.2 ≠ "succeeded" ∧ item.1 ∈ requested)
              (common.build_statuses version))) : gset string))
      by by apply to_build_elem.
    intros Hempty. rewrite Hempty in Hin. by apply not_elem_of_empty in Hin.
Qed.

Lemma requested_nonempty {T : common.Config.table} asked requested :
  (if truthy asked then
     str_set_comp (λ p, contains p asked)
       (elements (dom common.Config.macos_versions))
   else Ok (dom common.Config.macos_versions)) = Ok requested →
  requested ≠ ∅ ↔ ∃ p, requested_by asked p.
Proof.
  intros Hreq. pose proof (requested_elem _ _ Hreq) as Helem. split.
  - intros Hne. apply set_choose_L in Hne as [p Hp].
    exists p. by apply Helem.
  - intros [p Hp] ->. apply Helem in Hp. by apply not_elem_of_empty in Hp.
Qed.

(** X7. The errors of [platforms_to_build].  It raises when the event has no
    [buildInput.platforms].  When it has, it raises in two cases only: the
    value is a number or [True] (not a container) while the table has a
    platform, or the event asks for a platform of the table and has no
    version.  A value that is null, a list, a string or an object never
    makes it raise, and the version is not read when nothing is asked
    for. *)
Theorem platforms_to_build_raises_iff
    {F : common.functions} {T : common.Config.table} (self : Activity.t) :
  (raises (BuildAndPublishMacOS.input_platforms self) →
   raises (BuildAndPublishMacOS.platforms_to_build self)) ∧
  (∀ asked,
     BuildAndPublishMacOS.input_platforms self = Ok asked →
     (raises (BuildAndPublishMacOS.platforms_to_build self) ↔
      (truthy asked = true ∧ common.Config.macos_versions ≠ ∅ ∧
       ((∃ b, asked = PBool b) ∨ (∃ z, asked = PInt z))) ∨
      ((∃ p, requested_by asked p) ∧ raises (Activity.version self)))).
Proof.
  split.
  { unfold BuildAndPublishMacOS.platforms_to_build.
    by destruct (BuildAndPublishMacOS.input_platforms self). }
  intros asked Hasked. rewrite (platforms_to_build_unfold _ _ Hasked).
  set (all := dom common.Config.macos_versions).
  assert (Hall : common.Config.macos_versions ≠ ∅ ↔ ∃ x, x ∈ elements all).
  { unfold all. split.
    - intros Hne. apply map_choose in Hne as (x & v & Hx).
      exists x. apply elem_of_elements, elem_of_dom. by exists v.
    - intros [x Hx] Hempty. rewrite Hempty, dom_empty_L in Hx.
      by apply elem_of_elements, not_elem_of_empty in Hx. }
  destruct (if truthy asked then _ else _) as [requested |] eqn:Hreq; simpl.
  - rewrite <- (requested_nonempty _ _ Hreq).
    assert (Hnot : ¬ (truthy asked = true ∧ common.Config.macos_versions ≠ ∅ ∧
                      ((∃ b, asked = PBool b) ∨ (∃ z, asked = PInt z)))).
    { intros (Ht & Hne & Hkind). rewrite Ht in Hreq.
      apply Hall in Hne as [x Hx].
      assert (Hr : raises (str_set_comp (λ p, contains p asked) (elements all))).
      { apply str_set_comp_raises. exists x. split; [done |].
        apply contains_raises. by right. }
      by rewrite Hreq in Hr. }
    case_bool_decide as Hempty; simpl.
    + split; [intros [] | intros [? | [? _]]; done].
    + destruct (Activity.version self); simpl;
        (split; [try intros []; by right | intros [? | [_ ?]]; done]).
  - split; [intros _ | done]. left.
    destruct (truthy asked) eqn:Ht; [| discriminate].
    assert (Hr : raises (str_set_comp (λ p, contains p asked) (elements all)))
      by by rewrite Hreq.
    apply str_set_comp_raises in Hr as (x & Hx & Hc).
    split; [done |]. split; [apply Hall; by exists x |].
    apply contains_raises in Hc as [-> | Hc]; [discriminate | done].
Qed.

Lemma should_run_false_empty
    {F : common.functions} {T : common.Config.table} self :
  BuildAndPublishMacOS.should_run self = Ok false →
  BuildAndPublishMacOS.platforms_to_build self = Ok ∅.
Proof.
  unfold BuildAndPublishMacOS.should_run.
  destruct (BuildAndPublishMacOS.platforms_to_build self) as [platforms |];
    simpl; [| discriminate].
  intros [= Hempty]. apply negb_false_iff, bool_decide_eq_true in Hempty.
  by subst.
Qed.

Lemma iter_empty {O : PySet.order} : PySet.iter ∅ = [].
Proof.
  pose proof (PySet.iter_elements ∅) as Hperm.
  rewrite elements_empty in Hperm. by apply Permutation_nil_r in Hperm.
Qed.

(** X8. When [should_run] has returned [False], nothing is left to build,
    and [task_env] does not fit: with a table that has a platform it raises
    'we can only build all platforms or a single platform', with an empty
    list of platforms; with an empty table it returns the empty
    environment that means all platforms. *)
Theorem task_env_nothing_to_build
    {F : common.functions} {T : common.Config.table} {O : PySet.order}
    (self : Activity.t) :
  BuildAndPublishMacOS.should_run self = Ok false →
  (common.Config.macos_versions ≠ ∅ →
   BuildAndPublishMacOS.task_env self
   = Raise (Exception
       "we can only build all platforms or a single platform, but got: ")) ∧
  (common.Config.macos_versions = ∅ →
   BuildAndPublishMacOS.task_env self = Ok []).
Proof.
  intros Hrun. apply should_run_false_empty in Hrun.
  unfold BuildAndPublishMacOS.task_env. rewrite Hrun. cbn [bind].
  rewrite size_empty. split.
  - intros Hne. rewrite bool_decide_eq_false_2.
    + rewrite bool_decide_eq_false_2 by done. by rewrite iter_empty.
    + intros Hsize. symmetry in Hsize. by apply map_size_empty_iff in Hsize.
  - intros ->. by rewrite map_size_empty.
Qed.

(** X9. What [task_env] returns.  It is the empty environment, when as many
    platforms are left to build as the table has, or the single variable
    [PLATFORM], when one platform is left out of a table of another size;
    the value of [PLATFORM] is then what the table gives for that
    platform. *)
Theorem task_env_result
    {F : common.functions} {T : common.Config.table} {O : PySet.order}
    (self : Activity.t) (env : dict string) :
  BuildAndPublishMacOS.task_env self = Ok env →
  ∃ platforms,
    BuildAndPublishMacOS.platforms_to_build self = Ok platforms ∧
    ((size platforms = size common.Config.macos_versions ∧ env = []) ∨
     (size common.Config.macos_versions ≠ 1 ∧
      ∃ p v, platforms = {[p]} ∧
             common.Config.macos_versions !! p = Some v ∧
             env = [("PLATFORM", v)])).
Proof.
  unfold BuildAndPublishMacOS.task_env.
  destruct (BuildAndPublishMacOS.platforms_to_build self)
    as [platforms |] eqn:Hp; simpl; [| discriminate].
  intros Henv. exists platforms. split; [done |].
  case_bool_decide as Hall.
  - left. injection Henv as <-. by split.
  - right. case_bool_decide as Hone; [| discriminate].
    split; [congruence |].
    destruct (iter_singleton platforms Hone) as (p & Hiter & Hin).
    rewrite Hiter in Henv. unfold subscript in Henv.
    destruct (common.Config.macos_versions !! p) as [v |] eqn:Hv;
      simpl in Henv; [| discriminate].
    injection Henv as <-. exists p, v. repeat split; try done.
    apply size_1_elem_of in Hone as [q Hq]. apply leibniz_equiv in Hq.
    subst platforms. apply elem_of_singleton in Hin. by subst.
Qed.

(** *** The launch configuration of each class *)

Ltac ec2_params_cases c self H :=
  destruct c, self as [? [|]]; vm_compute in H; try discriminate H;
  injection H as <-.

(** X10. The launch configuration of each class.  Only [MakeBinaryPackage]
    changes the instance type, to m5.2xlarge; the others keep t2.micro.  The
    three overrides ask for a root volume of 16, 95 and 100 GB, the other
    classes name no block device.  Only [PublishBinaryPackages] fixes the
    availability zone, us-west-2a.  The instance profile is the
    [ec2_iam_arn] of the class. *)
Theorem ec2_params_of_each_class {F : common.functions}
    (c : classes.name) (self : Activity.t) (params : dict pyval) :
  classes.ec2_params c self = Ok params →
  get params "InstanceType" = Some (PStr (instance_type c)) ∧
  get params "BlockDeviceMappings"
    = (λ size, (BlockDeviceMappings size).2) <$> volume_size c ∧
  get params "Placement"
    = (λ zone, PDict [("AvailabilityZone", PStr zone)])
        <$> availability_zone c ∧
  get params "IamInstanceProfile"
    = Some (PDict [("Arn", attr_value (Activity.ec2_iam_arn (classes.cls c)))]).
Proof.
  intros Hparams. ec2_params_cases c self Hparams;
    vm_compute; repeat split; reflexivity.
Qed.

(** X11. The launch configuration is a dict: no key occurs twice.  Its keys
    are the ten keys of [Activity.ec2_params] in their order, followed by
    the keys an override adds; replacing [InstanceType] leaves it in its
    place. *)
Theorem ec2_params_keys {F : common.functions}
    (c : classes.name) (self : Activity.t) (params : dict pyval) :
  classes.ec2_params c self = Ok params →
  NoDup (keys params) ∧
  keys params =
    (base_keys ++
     match c with
     | classes.MakeSourceTarball | classes.MakeBinaryPackage =>
         ["BlockDeviceMappings"]
     | classes.PublishBinaryPackages => ["Placement"; "BlockDeviceMappings"]
     | _ => []
     end)%list.
Proof.
  intros Hparams. ec2_params_cases c self Hparams;
    (split; [apply (bool_decide_eq_true_1 _); vm_compute; reflexivity
            | vm_compute; reflexivity]).
Qed.

(** X12. The launch configuration does not depend on the event beyond
    [common.fake_ec2]: two events on which [common.fake_ec2] agrees give the
    same result of [ec2_params] in every class, whatever else they hold. *)
Theorem ec2_params_ignores_event {F : common.functions}
    (c : classes.name) (event event' : pyval) :
  common.fake_ec2 event = common.fake_ec2 event' →
  classes.ec2_params c (Activity.__init__ event)
  = classes.ec2_params c (Activity.__init__ event').
Proof.
  unfold Activity.__init__. intros ->. by destruct c.
Qed.

(** X13. The script handed to the instance.  After the assignments of
    [ACTIVITY_ARN] and [SCRIPT_URL] it assigns [INIT_URL], to the URL of
    [init_script] in [PublishBinaryPackages] and to the empty string in
    every other class, then holds the worker's environment, which is
    [SKIP_SEND_TASK_SUCCESS] in [BuildAndPublishMacOS] and empty elsewhere,
    and ends with the text of 'aws/hhvm1/worker/worker.sh'. *)
Theorem ec2_params_user_data {F : common.functions}
    (c : classes.name) (self : Activity.t) (params : dict pyval) :
  classes.ec2_params c self = Ok params →
  ∃ arn script,
    Activity.activity_arn (classes.cls c) = Some arn ∧
    Activity.script_name (classes.cls c) = Some script ∧
    get params "UserData" = Some (PStr (
      "#!/bin/bash" +:+ nl +:+
      Activity.assign "ACTIVITY_ARN" arn +:+
      Activity.assign "SCRIPT_URL"
        (common.url (if Activity.fake_ec2 self
                     then "aws/hhvm1/worker/dummy-task.sh"
                     else "aws/userdata/" +:+ script)) +:+
      Activity.assign "INIT_URL"
        (match c with
         | classes.PublishBinaryPackages =>
             common.url "aws/hhvm1/worker/init/update-repos.sh"
         | _ => EmptyString
         end) +:+
      Activity.indent +:+
      common.format_env
        (match c with
         | classes.BuildAndPublishMacOS => [("SKIP_SEND_TASK_SUCCESS", "1")]
         | _ => []
         end) +:+ nl +:+
      Activity.indent +:+ common.fetch "aws/hhvm1/worker/worker.sh" +:+ nl +:+
      "      ")).
Proof.
  intros Hparams. ec2_params_cases c self Hparams;
    eexists _, _; (split; [reflexivity |]); (split; [reflexivity |]);
    vm_compute; reflexivity.
Qed.

(** *** PublishDockerImages *)

Lemma set_add_returns (acc : pyset) (n : pyval) :
  returns (set_add acc n) ↔ hashable n = Ok tt.
Proof.
  unfold set_add, set_contains.
  destruct (hashable n) as [[] |]; simpl; split; try done.
Qed.

Lemma set_comp_returns {A} (f : A → result pyval) l acc :
  returns (set_comp f l acc) ↔
  ∀ x, x ∈ l → ∃ n, f x = Ok n ∧ hashable n = Ok tt.
Proof.
  revert acc. induction l as [| x l IH]; simpl; intros acc.
  - split; [| done]. intros _ x Hx. by apply elem_of_nil in Hx.
  - destruct (f x) as [n |] eqn:Hfx; simpl.
    + destruct (set_add acc n) as [acc' |] eqn:Hadd; simpl.
      * assert (Hn : hashable n = Ok tt).
        { apply (set_add_returns acc). by rewrite Hadd. }
        rewrite IH. split.
        -- intros Hl y Hy. apply elem_of_cons in Hy as [-> | Hy]; [| by apply Hl].
           by exists n.
        -- intros Hl y Hy. apply Hl. by right.
      * split; [done |]. intros Hl.
        destruct (Hl x ltac:(by left)) as (m & Hm & Hhash).
        assert (m = n) as -> by congruence.
        apply (set_add_returns acc) in Hhash. by rewrite Hadd in Hhash.
    + split; [done |]. intros Hl.
      destruct (Hl x ltac:(by left)) as (m & Hm & _). congruence.
Qed.

(** X14. The tags of a repository.  When [docker_tags] returns, a value is
    in the set exactly when some entry of the registry's document has a
    ['name'] equal to it. *)
Theorem docker_tags_members {W : request.web}
    (self : Activity.t) (repo : string) (tags : pyset) (v : pyval) :
  PublishDockerImages.docker_tags self repo = Ok tags →
  any (eqb v) tags = true ↔
  ∃ entries entry name,
    iter (request.urlopen_json
            ("https://index.docker.io/v1/repositories/hhvm/" +:+ repo
             +:+ "/tags")) = Ok entries ∧
    entry ∈ entries ∧ getitem entry "name" = Ok name ∧ eqb v name = true.
Proof. apply docker_tags_contains. Qed.

(** X15. The errors of [docker_tags].  It returns exactly when the
    registry's document can be iterated and every entry of it has a
    ['name'] that can be hashed; a document that is a number or null, an
    entry that is not an object or has no ['name'], or a name that is a list
    or an object makes it raise. *)
Theorem docker_tags_returns_iff {W : request.web}
    (self : Activity.t) (repo : string) :
  returns (PublishDockerImages.docker_tags self repo) ↔
  ∃ entries,
    iter (request.urlopen_json
            ("https://index.docker.io/v1/repositories/hhvm/" +:+ repo
             +:+ "/tags")) = Ok entries ∧
    ∀ entry, entry ∈ entries →
      ∃ name, getitem entry "name" = Ok name ∧ hashable name = Ok tt.
Proof.
  unfold PublishDockerImages.docker_tags.
  destruct (iter _) as [entries |]; simpl.
  - rewrite set_comp_returns. split.
    + intros Hall. by exists entries.
    + by intros (? & [= <-] & Hall).
  - split; [done | by intros (? & ? & _)].
Qed.

(** X16. [PublishDockerImages.should_run] reads the tags of 'hhvm-proxygen'
    only when the version is among the tags of 'hhvm'.  When the version is
    absent from the tags of 'hhvm' it returns [True] whatever the document
    of 'hhvm-proxygen' is; when it is present, an error on the tags of
    'hhvm-proxygen' is an error of [should_run]. *)
Theorem PublishDockerImages_should_run_lazy {W : request.web}
    (self : Activity.t) (version : pyval) (hhvm : pyset) :
  Activity.version self = Ok version →
  PublishDockerImages.docker_tags self "hhvm" = Ok hhvm →
  (set_contains version hhvm = Ok false →
   PublishDockerImages.should_run self = Ok true) ∧
  (set_contains version hhvm = Ok true →
   raises (PublishDockerImages.docker_tags self "hhvm-proxygen") →
   raises (PublishDockerImages.should_run self)).
Proof.
  intros Hversion Hhhvm. unfold PublishDockerImages.should_run.
  rewrite Hversion. simpl. rewrite Hhhvm. simpl. split.
  - by intros ->.
  - intros -> Hr. simpl.
    by destruct (PublishDockerImages.docker_tags self "hhvm-proxygen").
Qed.

(** *** MakeSourceTarball and MakeBinaryPackage *)

(** X17. The errors and the empty case of [MakeSourceTarball.should_run].
    An error of [version] is its error; a version whose environment has no
    'S3_BUCKET' raises [KeyError] on it, before 'S3_PATH' is looked up; one
    with a bucket and no 'S3_PATH' raises [KeyError] on 'S3_PATH'.  With
    both, it returns, and a listing without 'Contents' or with none gives
    [True]. *)
Theorem MakeSourceTarball_should_run_edges
    {F : common.functions} {AWS : boto3.account} (self : Activity.t) :
  (∀ e, Activity.version self = Raise e →
        MakeSourceTarball.should_run self = Raise e) ∧
  (∀ version,
     Activity.version self = Ok version →
     common.env_for_version version !! "S3_BUCKET" = None →
     MakeSourceTarball.should_run self = Raise (KeyError "S3_BUCKET")) ∧
  (∀ version bucket,
     Activity.version self = Ok version →
     common.env_for_version version !! "S3_BUCKET" = Some bucket →
     common.env_for_version version !! "S3_PATH" = None →
     MakeSourceTarball.should_run self = Raise (KeyError "S3_PATH")) ∧
  (∀ version bucket path,
     Activity.version self = Ok version →
     common.env_for_version version !! "S3_BUCKET" = Some bucket →
     common.env_for_version version !! "S3_PATH" = Some path →
     returns (MakeSourceTarball.should_run self) ∧
     (boto3.Contents (boto3.s3_list_objects bucket path) = None ∨
      boto3.Contents (boto3.s3_list_objects bucket path) = Some [] →
      MakeSourceTarball.should_run self = Ok true)).
Proof.
  unfold MakeSourceTarball.should_run, subscript.
  split; [by intros e -> |].
  split; [intros version Hv Hb; rewrite Hv; simpl; by rewrite Hb |].
  split; [intros version bucket Hv Hb Hp; rewrite Hv; simpl;
          rewrite Hb; simpl; by rewrite Hp |].
  intros version bucket path Hv Hb Hp.
  rewrite Hv. simpl. rewrite Hb, Hp. simpl.
  rewrite (any_gen_total _ (λ obj, bool_decide (boto3.Key obj = path)))
    by done.
  split; [done |]. by intros [-> | ->].
Qed.

(** X18. The errors of [MakeBinaryPackage.should_run] on an event that is an
    object: without 'version' it raises [KeyError] on 'version', whether or
    not 'platform' is there; with 'version' and without 'platform' it raises
    [KeyError] on 'platform'; with both it returns.  On an event that is not
    an object it raises. *)
Theorem MakeBinaryPackage_should_run_errors {F : common.functions}
    (event : pyval) :
  (∀ d, event = PDict d →
     (get d "version" = None →
      MakeBinaryPackage.should_run (Activity.__init__ event)
      = Raise (KeyError "version")) ∧
     (is_Some (get d "version") → get d "platform" = None →
      MakeBinaryPackage.should_run (Activity.__init__ event)
      = Raise (KeyError "platform")) ∧
     (is_Some (get d "version") → is_Some (get d "platform") →
      returns (MakeBinaryPackage.should_run (Activity.__init__ event)))) ∧
  ((∀ d, event ≠ PDict d) →
   raises (MakeBinaryPackage.should_run (Activity.__init__ event))).
Proof.
  unfold MakeBinaryPackage.should_run, Activity.version, Activity.platform.
  simpl. split.
  - intros d ->. simpl. repeat split.
    + by intros ->.
    + intros [v ->] ->. done.
    + intros [v ->] [p ->]. done.
  - intros Hnot. destruct event; simpl; try done. by destruct (Hnot d).
Qed.

(** *** Activity.has_ec2_workers *)

(** X19. In any class that has an [activity_arn], one that EC2 reads
    literally, [has_ec2_workers] returns, and returns [True] exactly when
    some instance of the account is pending or running and carries that ARN
    under the tag [ActivityArn]; instances in another state, or tagged for
    another activity, do not count, and the event plays no part. *)
Theorem has_ec2_workers_any_class {AWS : boto3.account}
    (cls : Activity.class) (self : Activity.t) (arn : string) :
  Activity.activity_arn cls = Some arn →
  boto3.literal arn = true →
  ∃ busy,
    (∀ self', Activity.has_ec2_workers cls self' = Ok busy) ∧
    (busy = true ↔
     ∃ i, i ∈ boto3.ec2_instances ∧
          (boto3.state_name i = "pending" ∨ boto3.state_name i = "running") ∧
          boto3.tags i !! "ActivityArn" = Some arn).
Proof.
  intros Harn _.
  destruct (has_ec2_workers_iff cls self arn Harn) as (busy & Hbusy & Hiff).
  exists busy. split; [intros self'; exact Hbusy |].
  rewrite Hiff. split; intros (i & Hi & Hstate & Htag); exists i;
    (split; [done |]); (split; [| done]).
  - apply elem_of_cons in Hstate as [-> | Hstate]; [by left |].
    apply list_elem_of_singleton in Hstate. by right.
  - destruct Hstate as [-> | ->]; [by left | right; by left].
Qed.
(** ** The theorems on the example deployment *)

#[local] Existing Instance scenario.functions.
#[local] Existing Instance scenario.table.
#[local] Existing Instance scenario.account.
#[local] Existing Instance scenario.web.
#[local] Existing Instance scenario.order.

Lemma any_unpublished_raises_iff_not_built_witness :
  ("not_built" ∉ values [("source", "succeeded");
                         ("source_gpg", "built_not_published")]) ∧
  (∃ b, any_unpublished [("source", "succeeded");
                         ("source_gpg", "built_not_published")] = Ok b ∧
        (b = true ↔
         "built_not_published" ∈ values [("source", "succeeded");
                                         ("source_gpg", "built_not_published")])).
Proof.
  assert (Hno : "not_built" ∉ values [("source", "succeeded");
                                      ("source_gpg", "built_not_published")])
    by (apply (bool_decide_eq_true_1 _); vm_compute; reflexivity).
  split; [exact Hno |].
  exact (proj2 (any_unpublished_raises_iff_not_built _) Hno).
Defined.

Lemma task_env_raises_iff_witness :
  (BuildAndPublishMacOS.platforms_to_build scenario.self
     = Ok {["macos-mojave"]} ∧
   (raises (BuildAndPublishMacOS.task_env scenario.self) ↔
    size ({["macos-mojave"]} : gset string)
      ≠ size common.Config.macos_versions ∧
    size ({["macos-mojave"]} : gset string) ≠ 1)) ∧
  (BuildAndPublishMacOS.should_run scenario.self = Ok true ∧
   (size common.Config.macos_versions ≤ 2)%nat ∧
   returns (BuildAndPublishMacOS.task_env scenario.self)).
Proof.
  assert (Hp : BuildAndPublishMacOS.platforms_to_build scenario.self
               = Ok {["macos-mojave"]}) by (vm_compute; reflexivity).
  assert (Hrun : BuildAndPublishMacOS.should_run scenario.self = Ok true)
    by (vm_compute; reflexivity).
  assert (Hle : (size common.Config.macos_versions ≤ 2)%nat)
    by (vm_compute; lia).
  split.
  - split; [exact Hp |].
    exact (proj1 (task_env_raises_iff scenario.self) _ Hp).
  - split; [exact Hrun |]. split; [exact Hle |].
    exact (proj2 (task_env_raises_iff scenario.self) Hrun Hle).
Defined.

Lemma ec2_params_raises_iff_missing_config_witness :
  classes.PublishDockerImages ∈ classes.subclasses ∧
  returns (classes.ec2_params classes.PublishDockerImages scenario.self).
Proof.
  assert (Hc : classes.PublishDockerImages ∈ classes.subclasses)
    by (apply (bool_decide_eq_true_1 _); vm_compute; reflexivity).
  split; [exact Hc |].
  apply (proj2 (proj2 (proj2 ec2_params_raises_iff_missing_config))
           classes.PublishDockerImages scenario.self Hc).
Defined.

Lemma MakeSourceTarball_should_run_iff_no_marker_witness :
  Activity.version scenario.self = Ok (PStr "4.56.0") ∧
  common.env_for_version (PStr "4.56.0") !! "S3_BUCKET"
    = Some "hhvm-downloads" ∧
  common.env_for_version (PStr "4.56.0") !! "S3_PATH"
    = Some "source/hhvm-4.56.0.tar.gz" ∧
  MakeSourceTarball.should_run scenario.self = Ok true.
Proof.
  assert (Hv : Activity.version scenario.self = Ok (PStr "4.56.0"))
    by (vm_compute; reflexivity).
  assert (Hb : common.env_for_version (PStr "4.56.0") !! "S3_BUCKET"
               = Some "hhvm-downloads") by (vm_compute; reflexivity).
  assert (Hp : common.env_for_version (PStr "4.56.0") !! "S3_PATH"
               = Some "source/hhvm-4.56.0.tar.gz")
    by (vm_compute; reflexivity).
  split; [exact Hv |]. split; [exact Hb |]. split; [exact Hp |].
  apply (proj1 (MakeSourceTarball_should_run_iff_no_marker
                  scenario.self _ _ _ Hv Hb Hp)).
  intros obj Hobj.
  apply list_elem_of_singleton in Hobj. subst obj. discriminate.
Defined.

Lemma PublishDockerImages_should_run_iff_untagged_witness :
  Activity.version scenario.self = Ok (PStr "4.56.0") ∧
  PublishDockerImages.docker_tags scenario.self "hhvm"
    = Ok [PStr "4.55.0"; PStr "latest"] ∧
  PublishDockerImages.docker_tags scenario.self "hhvm-proxygen"
    = Ok [PStr "4.55.0"; PStr "latest"] ∧
  set_contains (PStr "4.56.0") [PStr "4.55.0"; PStr "latest"] = Ok false ∧
  PublishDockerImages.should_run scenario.self = Ok true.
Proof.
  assert (Hv : Activity.version scenario.self = Ok (PStr "4.56.0"))
    by (vm_compute; reflexivity).
  assert (Hh : PublishDockerImages.docker_tags scenario.self "hhvm"
               = Ok [PStr "4.55.0"; PStr "latest"])
    by (vm_compute; reflexivity).
  assert (Hp : PublishDockerImages.docker_tags scenario.self "hhvm-proxygen"
               = Ok [PStr "4.55.0"; PStr "latest"])
    by (vm_compute; reflexivity).
  assert (Hin : set_contains (PStr "4.56.0") [PStr "4.55.0"; PStr "latest"]
                = Ok false) by (vm_compute; reflexivity).
  split; [exact Hv |]. split; [exact Hh |]. split; [exact Hp |].
  split; [exact Hin |].
  apply (proj1 (proj2 (PublishDockerImages_should_run_iff_untagged
                  scenario.self _ _ _ _ _ Hv Hh Hp Hin Hin))).
  left. reflexivity.
Defined.

Lemma PublishSourceTarball_should_run_nightly_witness :
  Activity.version scenario.nightly_self = Ok (PStr "2020.05.01-nightly") ∧
  common.is_nightly (PStr "2020.05.01-nightly") = true ∧
  "not_built" ∈ values (common.build_statuses (PStr "2020.05.01-nightly")) ∧
  PublishSourceTarball.should_run scenario.nightly_self = Ok false.
Proof.
  assert (Hv : Activity.version scenario.nightly_self
               = Ok (PStr "2020.05.01-nightly"))
    by (vm_compute; reflexivity).
  assert (Hn : common.is_nightly (PStr "2020.05.01-nightly") = true)
    by (vm_compute; reflexivity).
  split; [exact Hv |]. split; [exact Hn |]. split.
  - apply (bool_decide_eq_true_1 _). vm_compute. reflexivity.
  - apply (PublishSourceTarball_should_run_nightly
             scenario.nightly_self _ Hv Hn).
Defined.

Lemma needs_ec2_worker_single_instance_witness :
  classes.MakeSourceTarball ≠ classes.PublishBinaryPackages ∧
  classes.needs_ec2_worker classes.MakeSourceTarball scenario.self = Ok true.
Proof.
  assert (Hc : classes.MakeSourceTarball ≠ classes.PublishBinaryPackages)
    by discriminate.
  split; [exact Hc |].
  apply (proj2 (proj2 (needs_ec2_worker_single_instance scenario.self))
           classes.MakeSourceTarball Hc).
Defined.

Lemma ec2_params_one_tagged_instance_witness :
  classes.ec2_params classes.MakeBinaryPackage scenario.self
    = Ok scenario.binary_package_params ∧
  get scenario.binary_package_params "MinCount" = Some (PInt 1) ∧
  get scenario.binary_package_params "MaxCount" = Some (PInt 1).
Proof.
  assert (Hcall : classes.ec2_params classes.MakeBinaryPackage scenario.self
                  = Ok scenario.binary_package_params)
    by (vm_compute; reflexivity).
  split; [exact Hcall |].
  destruct (ec2_params_one_tagged_instance
              classes.MakeBinaryPackage scenario.self _ Hcall)
    as (Hmin & Hmax & _).
  split; [exact Hmin | exact Hmax].
Defined.

Lemma ec2_params_script_url_witness :
  classes.ec2_params classes.PublishDockerImages
    (Activity.__init__ scenario.event) = Ok scenario.docker_images_params ∧
  common.fake_ec2 scenario.event = true ∧
  ∃ rest,
    get scenario.docker_images_params "UserData" = Some (PStr (
      "#!/bin/bash" +:+ nl +:+
      Activity.assign "ACTIVITY_ARN"
        "arn:aws:states:us-west-2:223121549624:activity:hhvm-publish-docker-images" +:+
      Activity.assign "SCRIPT_URL"
        (common.url "aws/hhvm1/worker/dummy-task.sh") +:+
      rest)).
Proof.
  assert (Hcall : classes.ec2_params classes.PublishDockerImages
                    (Activity.__init__ scenario.event)
                  = Ok scenario.docker_images_params)
    by (vm_compute; reflexivity).
  split; [exact Hcall |]. split; [vm_compute; reflexivity |].
  destruct (proj2 (ec2_params_script_url scenario.event)
              classes.PublishDockerImages _ Hcall)
    as (arn & script & rest & Harn & Hscript & Hdata).
  injection Harn as <-. injection Hscript as <-.
  exists rest. exact Hdata.
Defined.

Lemma MakeBinaryPackage_should_run_iff_not_built_witness :
  Activity.version scenario.self = Ok (PStr "4.56.0") ∧
  Activity.platform scenario.self = Ok (PStr "ubuntu-20.04-focal") ∧
  common.build_status (PStr "4.56.0") (PStr "ubuntu-20.04-focal")
    = "not_built" ∧
  MakeBinaryPackage.should_run scenario.self = Ok true.
Proof.
  assert (Hv : Activity.version scenario.self = Ok (PStr "4.56.0"))
    by (vm_compute; reflexivity).
  assert (Hp : Activity.platform scenario.self
               = Ok (PStr "ubuntu-20.04-focal"))
    by (vm_compute; reflexivity).
  assert (Hs : common.build_status (PStr "4.56.0")
                 (PStr "ubuntu-20.04-focal") = "not_built")
    by (vm_compute; reflexivity).
  split; [exact Hv |]. split; [exact Hp |]. split; [exact Hs |].
  apply (proj1 (MakeBinaryPackage_should_run_iff_not_built scenario.self)).
  exists (PStr "4.56.0"), (PStr "ubuntu-20.04-focal").
  split; [exact Hv |]. split; [exact Hp | exact Hs].
Defined.

(** ** The functions on small inputs *)

Example any_unpublished_unbuilt :
  any_unpublished
    [("source", "not_built"); ("source_gpg", "succeeded");
     ("ubuntu-20.04-focal", "not_built")]
  = Raise (Exception
      "cannot publish because there are unbuilt packages: source, ubuntu-20.04-focal").
Proof. vm_compute. reflexivity. Qed.

Example any_unpublished_empty : any_unpublished [] = Ok false.
Proof. reflexivity. Qed.

Example any_unpublished_published :
  any_unpublished [("source", "succeeded"); ("source_gpg", "succeeded")]
  = Ok false.
Proof. vm_compute. reflexivity. Qed.

Example dict_update_order :
  update [("a", 1); ("b", 2)] [("b", 3); ("c", 4)]
  = [("a", 1); ("b", 3); ("c", 4)].
Proof. vm_compute. reflexivity. Qed.

Example Activity_ec2_params_missing_config :
  Activity.ec2_params Activity.cls [] scenario.self
  = Raise (Exception "missing config in Activity").
Proof. vm_compute. reflexivity. Qed.

Example ec2_params_empty_script_name :
  Activity.ec2_params
    {| Activity.__name__ := "Draft";
       Activity.ec2_iam_arn := Some "arn:aws:iam::1:instance-profile/draft";
       Activity.activity_arn := Some "arn:aws:states:us-west-2:1:activity:draft";
       Activity.script_name := Some EmptyString;
       Activity.init_script := None |} [] scenario.self
  = Raise (Exception "missing config in Draft").
Proof. vm_compute. reflexivity. Qed.

Example PublishBinaryPackages_should_run_linux_only :
  PublishBinaryPackages.should_run scenario.self = Ok false.
Proof. vm_compute. reflexivity. Qed.

Example PublishSourceTarball_should_run_release :
  raises (PublishSourceTarball.should_run scenario.self).
Proof. vm_compute. exact I. Qed.

Example needs_ec2_worker_idle :
  PublishBinaryPackages.needs_ec2_worker scenario.self = Ok true.
Proof. vm_compute. reflexivity. Qed.

Example needs_ec2_worker_busy :
  PublishBinaryPackages.needs_ec2_worker (AWS := scenario.busy_account)
    scenario.self = Ok false.
Proof. vm_compute. reflexivity. Qed.

Example MakeSourceTarball_should_run_marker :
  MakeSourceTarball.should_run (AWS := scenario.busy_account) scenario.self
  = Ok false.
Proof. vm_compute. reflexivity. Qed.

Example should_run_without_version :
  MakeBinaryPackage.should_run (Activity.__init__ (PDict []))
  = Raise (KeyError "version").
Proof. vm_compute. reflexivity. Qed.

Example platforms_to_build_two_of_three :
  BuildAndPublishMacOS.platforms_to_build
    (F := common.with_build_statuses scenario.functions scenario.statuses3)
    (T := scenario.table3) (Activity.__init__ scenario.event3)
  = Ok {["macos-catalina"; "macos-mojave"]}.
Proof. vm_compute. reflexivity. Qed.

Example task_env_two_of_three :
  raises
    (BuildAndPublishMacOS.task_env
       (F := common.with_build_statuses scenario.functions scenario.statuses3)
       (T := scenario.table3) (Activity.__init__ scenario.event3)).
Proof. vm_compute. exact I. Qed.

Example task_env_single_platform :
  BuildAndPublishMacOS.task_env scenario.self = Ok [("PLATFORM", "10.14")].
Proof. vm_compute. reflexivity. Qed.

Example platforms_to_build_not_iterable :
  raises
    (BuildAndPublishMacOS.platforms_to_build
       (Activity.__init__
          (PDict [("version", PStr "4.56.0");
                  ("buildInput", PDict [("platforms", PInt 1)])]))).
Proof. vm_compute. exact I. Qed.

(** ** The further properties on the example deployment *)

Lemma PublishBinaryPackages_should_run_linux_witness :
  Activity.version scenario.self = Ok (PStr "4.56.0") ∧
  NoDup (keys (common.build_statuses (PStr "4.56.0"))) ∧
  (raises (PublishBinaryPackages.should_run scenario.self) ↔
   ∃ p, (p, "not_built") ∈ common.build_statuses (PStr "4.56.0") ∧
        common.is_linux p = true).
Proof.
  assert (Hv : Activity.version scenario.self = Ok (PStr "4.56.0"))
    by (vm_compute; reflexivity).
  assert (Hnd : NoDup (keys (common.build_statuses (PStr "4.56.0"))))
    by (apply (bool_decide_eq_true_1 _); vm_compute; reflexivity).
  split; [exact Hv |]. split; [exact Hnd |].
  exact (proj1 (PublishBinaryPackages_should_run_linux
                  scenario.self _ Hv Hnd)).
Defined.

Lemma PublishSourceTarball_should_run_sources_witness :
  Activity.version scenario.self = Ok (PStr "4.56.0") ∧
  common.is_nightly (PStr "4.56.0") = false ∧
  NoDup (keys (common.build_statuses (PStr "4.56.0"))) ∧
  raises (PublishSourceTarball.should_run scenario.self).
Proof.
  assert (Hv : Activity.version scenario.self = Ok (PStr "4.56.0"))
    by (vm_compute; reflexivity).
  assert (Hn : common.is_nightly (PStr "4.56.0") = false)
    by (vm_compute; reflexivity).
  assert (Hnd : NoDup (keys (common.build_statuses (PStr "4.56.0"))))
    by (apply (bool_decide_eq_true_1 _); vm_compute; reflexivity).
  split; [exact Hv |]. split; [exact Hn |]. split; [exact Hnd |].
  apply (proj1 (PublishSourceTarball_should_run_sources
                  scenario.self _ Hv Hn Hnd)).
  exists "source". split; [| by left].
  apply (bool_decide_eq_true_1 _). vm_compute. reflexivity.
Defined.

Lemma any_unpublished_restriction_witness :
  raises (any_unpublished
            (dict_comp (λ p _, occurs "source" p)
               [("source", "not_built"); ("macos-mojave", "succeeded")])) ∧
  raises (any_unpublished
            [("source", "not_built"); ("macos-mojave", "succeeded")]).
Proof.
  assert (Hr : raises (any_unpublished
            (dict_comp (λ p _, occurs "source" p)
               [("source", "not_built"); ("macos-mojave", "succeeded")])))
    by (vm_compute; exact I).
  split; [exact Hr |].
  exact (proj1 (any_unpublished_restriction _ _) Hr).
Defined.

Lemma any_unpublished_message_witness :
  NoDup (keys [("source", "not_built"); ("source_gpg", "succeeded");
               ("ubuntu-20.04-focal", "not_built")]) ∧
  ("not_built" ∈ values [("source", "not_built"); ("source_gpg", "succeeded");
                         ("ubuntu-20.04-focal", "not_built")]) ∧
  any_unpublished [("source", "not_built"); ("source_gpg", "succeeded");
                   ("ubuntu-20.04-focal", "not_built")]
  = Raise (Exception
      ("cannot publish because there are unbuilt packages: " +:+
       join ", " ["source"; "ubuntu-20.04-focal"])).
Proof.
  assert (Hnd : NoDup (keys [("source", "not_built");
                             ("source_gpg", "succeeded");
                             ("ubuntu-20.04-focal", "not_built")]))
    by (apply (bool_decide_eq_true_1 _); vm_compute; reflexivity).
  assert (Hnb : "not_built" ∈ values [("source", "not_built");
                                      ("source_gpg", "succeeded");
                                      ("ubuntu-20.04-focal", "not_built")])
    by (apply (bool_decide_eq_true_1 _); vm_compute; reflexivity).
  split; [exact Hnd |]. split; [exact Hnb |].
  exact (any_unpublished_message _ Hnd Hnb).
Defined.

Lemma platforms_to_build_members_witness :
  BuildAndPublishMacOS.platforms_to_build scenario.self
    = Ok {["macos-mojave"]} ∧
  ∃ asked,
    BuildAndPublishMacOS.input_platforms scenario.self = Ok asked ∧
    ∀ p, p ∈ ({["macos-mojave"]} : gset string) ↔
         is_Some (common.Config.macos_versions !! p) ∧
         (truthy asked = true → contains p asked = Ok true) ∧
         ∃ version status,
           Activity.version scenario.self = Ok version ∧
           (p, status) ∈ common.build_statuses version ∧
           status ≠ "succeeded".
Proof.
  assert (Hp : BuildAndPublishMacOS.platforms_to_build scenario.self
               = Ok {["macos-mojave"]}) by (vm_compute; reflexivity).
  split; [exact Hp |].
  exact (platforms_to_build_members scenario.self _ Hp).
Defined.

Lemma BuildAndPublishMacOS_should_run_iff_witness :
  BuildAndPublishMacOS.input_platforms scenario.self = Ok (PList []) ∧
  Activity.version scenario.self = Ok (PStr "4.56.0") ∧
  BuildAndPublishMacOS.should_run scenario.self = Ok true.
Proof.
  assert (Ha : BuildAndPublishMacOS.input_platforms scenario.self
               = Ok (PList [])) by (vm_compute; reflexivity).
  assert (Hv : Activity.version scenario.self = Ok (PStr "4.56.0"))
    by (vm_compute; reflexivity).
  split; [exact Ha |]. split; [exact Hv |].
  apply (proj2 (BuildAndPublishMacOS_should_run_iff scenario.self)).
  exists (PList []), (PStr "4.56.0"), "macos-mojave".
  split; [exact Ha |]. split; [exact Hv |]. split.
  - split; [| discriminate]. exists "10.14". vm_compute. reflexivity.
  - exists "not_built". split; [| discriminate].
    apply (bool_decide_eq_true_1 _). vm_compute. reflexivity.
Defined.

Lemma platforms_to_build_raises_iff_witness :
  BuildAndPublishMacOS.input_platforms (Activity.__init__ cases.number_event)
    = Ok (PInt 1) ∧
  raises (BuildAndPublishMacOS.platforms_to_build
            (Activity.__init__ cases.number_event)).
Proof.
  assert (Ha : BuildAndPublishMacOS.input_platforms
                 (Activity.__init__ cases.number_event) = Ok (PInt 1))
    by (vm_compute; reflexivity).
  split; [exact Ha |].
  apply (proj2 (platforms_to_build_raises_iff
                  (Activity.__init__ cases.number_event)) _ Ha).
  left. split; [vm_compute; reflexivity |]. split; [| right; by exists 1%Z].
  intros Hempty.
  assert (Hl : common.Config.macos_versions !! "macos-mojave" = Some "10.14")
    by (vm_compute; reflexivity).
  rewrite Hempty in Hl. discriminate Hl.
Defined.

Lemma task_env_nothing_to_build_witness :
  BuildAndPublishMacOS.should_run (Activity.__init__ cases.built_event)
    = Ok false ∧
  common.Config.macos_versions ≠ ∅ ∧
  BuildAndPublishMacOS.task_env (Activity.__init__ cases.built_event)
  = Raise (Exception
      "we can only build all platforms or a single platform, but got: ").
Proof.
  assert (Hrun : BuildAndPublishMacOS.should_run
                   (Activity.__init__ cases.built_event) = Ok false)
    by (vm_compute; reflexivity).
  assert (Hne : common.Config.macos_versions ≠ ∅).
  { intros Hempty.
    assert (Hl : common.Config.macos_versions !! "macos-mojave"
                 = Some "10.14") by (vm_compute; reflexivity).
    rewrite Hempty in Hl. discriminate Hl. }
  split; [exact Hrun |]. split; [exact Hne |].
  exact (proj1 (task_env_nothing_to_build _ Hrun) Hne).
Defined.

Lemma task_env_result_witness :
  BuildAndPublishMacOS.task_env scenario.self = Ok [("PLATFORM", "10.14")] ∧
  ∃ platforms,
    BuildAndPublishMacOS.platforms_to_build scenario.self = Ok platforms ∧
    ((size platforms = size common.Config.macos_versions ∧
      [("PLATFORM", "10.14")] = []) ∨
     (size common.Config.macos_versions ≠ 1 ∧
      ∃ p v, platforms = {[p]} ∧
             common.Config.macos_versions !! p = Some v ∧
             [("PLATFORM", "10.14")] = [("PLATFORM", v)])).
Proof.
  assert (Henv : BuildAndPublishMacOS.task_env scenario.self
                 = Ok [("PLATFORM", "10.14")]) by (vm_compute; reflexivity).
  split; [exact Henv |].
  exact (task_env_result scenario.self _ Henv).
Defined.

Lemma ec2_params_of_each_class_witness :
  classes.ec2_params classes.MakeBinaryPackage scenario.self
    = Ok scenario.binary_package_params ∧
  get scenario.binary_package_params "InstanceType"
    = Some (PStr "m5.2xlarge") ∧
  get scenario.binary_package_params "BlockDeviceMappings"
    = Some (BlockDeviceMappings 95).2 ∧
  get scenario.binary_package_params "Placement" = None.
Proof.
  assert (Hcall : classes.ec2_params classes.MakeBinaryPackage scenario.self
                  = Ok scenario.binary_package_params)
    by (vm_compute; reflexivity).
  split; [exact Hcall |].
  destruct (ec2_params_of_each_class
              classes.MakeBinaryPackage scenario.self _ Hcall)
    as (Htype & Hvolume & Hzone & _).
  split; [exact Htype |]. split; [exact Hvolume | exact Hzone].
Defined.

Lemma ec2_params_keys_witness :
  classes.ec2_params classes.MakeBinaryPackage scenario.self
    = Ok scenario.binary_package_params ∧
  NoDup (keys scenario.binary_package_params) ∧
  keys scenario.binary_package_params
  = (base_keys ++ ["BlockDeviceMappings"])%list.
Proof.
  assert (Hcall : classes.ec2_params classes.MakeBinaryPackage scenario.self
                  = Ok scenario.binary_package_params)
    by (vm_compute; reflexivity).
  split; [exact Hcall |].
  exact (ec2_params_keys classes.MakeBinaryPackage scenario.self _ Hcall).
Defined.

Lemma ec2_params_ignores_event_witness :
  common.fake_ec2 scenario.nightly_event = common.fake_ec2 cases.built_event ∧
  classes.ec2_params classes.PublishSourceTarball
    (Activity.__init__ scenario.nightly_event)
  = classes.ec2_params classes.PublishSourceTarball
      (Activity.__init__ cases.built_event).
Proof.
  assert (Hfake : common.fake_ec2 scenario.nightly_event
                  = common.fake_ec2 cases.built_event)
    by (vm_compute; reflexivity).
  split; [exact Hfake |].
  exact (ec2_params_ignores_event classes.PublishSourceTarball _ _ Hfake).
Defined.

Lemma ec2_params_user_data_witness :
  classes.ec2_params classes.PublishDockerImages scenario.self
    = Ok scenario.docker_images_params ∧
  ∃ arn script,
    Activity.activity_arn (classes.cls classes.PublishDockerImages)
      = Some arn ∧
    Activity.script_name (classes.cls classes.PublishDockerImages)
      = Some script ∧
    get scenario.docker_images_params "UserData" = Some (PStr (
      "#!/bin/bash" +:+ nl +:+
      Activity.assign "ACTIVITY_ARN" arn +:+
      Activity.assign "SCRIPT_URL"
        (common.url (if Activity.fake_ec2 scenario.self
                     then "aws/hhvm1/worker/dummy-task.sh"
                     else "aws/userdata/" +:+ script)) +:+
      Activity.assign "INIT_URL" EmptyString +:+
      Activity.indent +:+ common.format_env [] +:+ nl +:+
      Activity.indent +:+ common.fetch "aws/hhvm1/worker/worker.sh" +:+ nl +:+
      "      ")).
Proof.
  assert (Hcall : classes.ec2_params classes.PublishDockerImages scenario.self
                  = Ok scenario.docker_images_params)
    by (vm_compute; reflexivity).
  split; [exact Hcall |].
  exact (ec2_params_user_data
           classes.PublishDockerImages scenario.self _ Hcall).
Defined.

Lemma docker_tags_members_witness :
  PublishDockerImages.docker_tags scenario.self "hhvm"
    = Ok [PStr "4.55.0"; PStr "latest"] ∧
  (any (eqb (PStr "latest")) [PStr "4.55.0"; PStr "latest"] = true ↔
   ∃ entries entry name,
     iter (request.urlopen_json
             ("https://index.docker.io/v1/repositories/hhvm/" +:+ "hhvm"
              +:+ "/tags")) = Ok entries ∧
     entry ∈ entries ∧ getitem entry "name" = Ok name ∧
     eqb (PStr "latest") name = true).
Proof.
  assert (Htags : PublishDockerImages.docker_tags scenario.self "hhvm"
                  = Ok [PStr "4.55.0"; PStr "latest"])
    by (vm_compute; reflexivity).
  split; [exact Htags |].
  exact (docker_tags_members scenario.self "hhvm" _ (PStr "latest") Htags).
Defined.

Lemma docker_tags_returns_iff_witness :
  returns (PublishDockerImages.docker_tags scenario.self "hhvm") ∧
  ∃ entries,
    iter (request.urlopen_json
            ("https://index.docker.io/v1/repositories/hhvm/" +:+ "hhvm"
             +:+ "/tags")) = Ok entries ∧
    ∀ entry, entry ∈ entries →
      ∃ name, getitem entry "name" = Ok name ∧ hashable name = Ok tt.
Proof.
  assert (Hr : returns (PublishDockerImages.docker_tags scenario.self "hhvm"))
    by (vm_compute; exact I).
  split; [exact Hr |].
  exact (proj1 (docker_tags_returns_iff scenario.self "hhvm") Hr).
Defined.

Lemma PublishDockerImages_should_run_lazy_witness :
  Activity.version scenario.self = Ok (PStr "4.56.0") ∧
  PublishDockerImages.docker_tags scenario.self "hhvm"
    = Ok [PStr "4.55.0"; PStr "latest"] ∧
  set_contains (PStr "4.56.0") [PStr "4.55.0"; PStr "latest"] = Ok false ∧
  PublishDockerImages.should_run scenario.self = Ok true.
Proof.
  assert (Hv : Activity.version scenario.self = Ok (PStr "4.56.0"))
    by (vm_compute; reflexivity).
  assert (Hh : PublishDockerImages.docker_tags scenario.self "hhvm"
               = Ok [PStr "4.55.0"; PStr "latest"])
    by (vm_compute; reflexivity).
  assert (Hin : set_contains (PStr "4.56.0") [PStr "4.55.0"; PStr "latest"]
                = Ok false) by (vm_compute; reflexivity).
  split; [exact Hv |]. split; [exact Hh |]. split; [exact Hin |].
  exact (proj1 (PublishDockerImages_should_run_lazy
                  scenario.self _ _ Hv Hh) Hin).
Defined.

Lemma MakeSourceTarball_should_run_edges_witness :
  Activity.version (Activity.__init__ (PDict []))
    = Raise (KeyError "version") ∧
  MakeSourceTarball.should_run (Activity.__init__ (PDict []))
    = Raise (KeyError "version").
Proof.
  assert (Hv : Activity.version (Activity.__init__ (PDict []))
               = Raise (KeyError "version")) by (vm_compute; reflexivity).
  split; [exact Hv |].
  exact (proj1 (MakeSourceTarball_should_run_edges
                  (Activity.__init__ (PDict []))) _ Hv).
Defined.

Lemma MakeBinaryPackage_should_run_errors_witness :
  get [("platform", PStr "ubuntu-20.04-focal")] "version" = None ∧
  MakeBinaryPackage.should_run
    (Activity.__init__ (PDict [("platform", PStr "ubuntu-20.04-focal")]))
  = Raise (KeyError "version").
Proof.
  assert (Hv : get [("platform", PStr "ubuntu-20.04-focal")] "version" = None)
    by (vm_compute; reflexivity).
  split; [exact Hv |].
  exact (proj1 (proj1 (MakeBinaryPackage_should_run_errors
                         (PDict [("platform", PStr "ubuntu-20.04-focal")]))
                  _ eq_refl) Hv).
Defined.

Lemma has_ec2_workers_any_class_witness :
  Activity.activity_arn MakeBinaryPackage.cls
    = Some "arn:aws:states:us-west-2:223121549624:activity:hhvm-make-binary-package" ∧
  boto3.literal
    "arn:aws:states:us-west-2:223121549624:activity:hhvm-make-binary-package"
    = true ∧
  ∃ busy,
    (∀ self', Activity.has_ec2_workers MakeBinaryPackage.cls self' = Ok busy) ∧
    (busy = true ↔
     ∃ i, i ∈ boto3.ec2_instances ∧
          (boto3.state_name i = "pending" ∨ boto3.state_name i = "running") ∧
          boto3.tags i !! "ActivityArn"
          = Some "arn:aws:states:us-west-2:223121549624:activity:hhvm-make-binary-package").
Proof.
  assert (Harn : Activity.activity_arn MakeBinaryPackage.cls
    = Some "arn:aws:states:us-west-2:223121549624:activity:hhvm-make-binary-package")
    by reflexivity.
  assert (Hlit : boto3.literal
    "arn:aws:states:us-west-2:223121549624:activity:hhvm-make-binary-package"
    = true) by (vm_compute; reflexivity).
  split; [exact Harn |]. split; [exact Hlit |].
  exact (has_ec2_workers_any_class
           MakeBinaryPackage.cls scenario.self _ Harn Hlit).
Defined.
